(** * Polsa Grant Backend: admission, proxying and the admin surface

    A shallow embedding of the Express server of this repository
    (the handler of [POST /send-airtime], the admin router and the shared
    in-memory state) and the properties of its admission and proxy core.

    Conventions of the embedding.
    - A field of [req.body] is any JSON value; [JsVal] has the primitives
      and one constructor for arrays and objects, which carries the string
      the value converts to.  A number [JNum n] stands for the integer
      [n] where JavaScript holds it exactly, that is for [n] between
      -2^53 and 2^53; statements that depend on the printing or the
      parsing of a number carry that bound as a hypothesis.
    - A handler is a tree of the effects it performs, in the order the
      source performs them: reads and updates of the shared state, reads of
      the clock, the awaited [axios.post] and the reply.  The part of a
      handler between two awaits runs without interruption, as on the
      event loop of Node.
    - [console.log] lines, CORS and the rate limiter in front of the public
      route are not part of the model. *)

From Stdlib Require Import ZArith String Ascii List Bool Lia DecimalString.
From Stdlib Require DecimalPos DecimalFacts.
Import ListNotations.

Local Open Scope string_scope.
Local Open Scope Z_scope.

(** ** JavaScript values and the operators the server uses *)

Module Js.

Inductive JsVal : Type :=
| JUndefined
| JNull
| JBool (b : bool)
| JNum (n : Z)
| JStr (s : string)
| JObj (str : string).   (* an array or object; [str] is its string conversion *)

(** ToBoolean: what [!v] and [v || w] test. *)
Definition truthy (v : JsVal) : bool :=
  match v with
  | JUndefined | JNull => false
  | JBool b => b
  | JNum n => negb (n =? 0)
  | JStr s => negb (s =? "")%string
  | JObj _ => true
  end.

(** [a || b] *)
Definition js_or (a b : JsVal) : JsVal := if truthy a then a else b.

(** ToString, as applied by [RegExp.prototype.test], by property keys,
    by [parseInt] and by template literals.  The decimal digits of
    [JNum n] are what JavaScript prints for the integers it holds exactly
    (between -2^53 and 2^53); a larger number is a rounded double, printed
    in exponent form from 10^21 on, which this function does not
    follow. *)
Definition ToString (v : JsVal) : string :=
  match v with
  | JUndefined => "undefined"
  | JNull => "null"
  | JBool true => "true"
  | JBool false => "false"
  | JNum n => NilZero.string_of_int (Z.to_int n)
  | JStr s => s
  | JObj str => str
  end.

(** [v === s] for a string [s]: no conversion, so only a string equals it. *)
Definition strict_eq_str (v : JsVal) (s : string) : bool :=
  match v with
  | JStr t => (t =? s)%string
  | _ => false
  end.

Definition is_digit (c : ascii) : bool :=
  let n := nat_of_ascii c in (48 <=? n)%nat && (n <=? 57)%nat.

Definition digit_val (c : ascii) : Z := Z.of_nat (nat_of_ascii c) - 48.

(** StrWhiteSpaceChar, restricted to the ASCII range. *)
Definition is_space (c : ascii) : bool :=
  let n := nat_of_ascii c in
  (n =? 32)%nat || ((9 <=? n) && (n <=? 13))%nat.

Fixpoint skip_spaces (s : string) : string :=
  match s with
  | String c r => if is_space c then skip_spaces r else s
  | EmptyString => s
  end.

(** The value of the longest prefix of decimal digits, continuing [acc]. *)
Fixpoint leading_digits (s : string) (acc : Z) : Z :=
  match s with
  | String c r => if is_digit c then leading_digits r (10 * acc + digit_val c) else acc
  | EmptyString => acc
  end.

Definition starts_with_digit (s : string) : bool :=
  match s with
  | String c _ => is_digit c
  | EmptyString => false
  end.

(** [parseInt(v, 10)]; [None] is NaN.  The result is the integer that
    the digits denote; JavaScript returns the nearest double, which is
    that integer exactly when it lies between -2^53 and 2^53.  The white
    space skipped is the ASCII part of StrWhiteSpaceChar. *)
Definition parseInt10 (v : JsVal) : option Z :=
  let s := skip_spaces (ToString v) in
  let '(neg, s) :=
    match s with
    | String "-" r => (true, r)
    | String "+" r => (false, r)
    | _ => (false, s)
    end in
  if starts_with_digit s
  then Some (if neg then - leading_digits s 0 else leading_digits s 0)
  else None.

(** [s.split('T')[0]] *)
Fixpoint before_T (s : string) : string :=
  match s with
  | String c r => if (c =? "T")%char then EmptyString else String c (before_T r)
  | EmptyString => EmptyString
  end.

(** [s.startsWith(p)] *)
Definition startsWith (s p : string) : bool := String.prefix p s.

End Js.
Import Js.

(** ** The data of the server *)

(** [siteState]; [totalAmountToday] is absent until [/admin/state] first
    stores it. *)
Record SiteState : Type := mkSiteState {
  isSiteOnline : bool;
  claimLimit : Z;
  claimsToday : Z;
  totalAmountToday : option Z
}.

(** An entry of [transactionHistory].  [network] and [mobile_number] are
    the request's fields as received. *)
Record Tx : Type := mkTx {
  tx_date : string;
  tx_network : JsVal;
  tx_mobile_number : JsVal;
  tx_amount : Z;
  tx_status : string
}.

(** The two module-level variables [siteState] and [transactionHistory]. *)
Record Ledger : Type := mkLedger {
  siteState : SiteState;
  transactionHistory : list Tx
}.

(** The fields of [req.body] that the routes read; an absent field is
    [JUndefined]. *)
Record ReqBody : Type := mkBody {
  pin : JsVal;
  limit : JsVal;
  network : JsVal;
  mobile_number : JsVal
}.

(** [process.env]: a variable is unset or a string. *)
Record Env : Type := mkEnv {
  env_API_KEY : option string;
  env_ADMIN_PHONE : option string
}.

(** [process.env.X || fallback] *)
Definition env_or (v : option string) (fallback : string) : string :=
  match v with
  | Some s => if truthy (JStr s) then s else fallback
  | None => fallback
  end.

Definition API_KEY (env : Env) : string :=
  env_or (env_API_KEY env) "67023380ece9a9561cac9b5f208907e0ab85063b".

Definition ADMIN_PIN : string := "226688".

Definition ADMIN_PHONE (env : Env) : string :=
  env_or (env_ADMIN_PHONE env) "09161041419".

(** The initial values of the module-level variables. *)
Definition initial_ledger : Ledger :=
  mkLedger (mkSiteState true 52 0 None) [].

(** *** The provider call *)

(** What the posted JSON body carries under [network], the value of
    [networkIds[network]] once serialised: a number of the table; nothing,
    when the lookup gives [undefined] or one of the functions inherited
    from [Object.prototype] ([constructor], [toString], ...), which
    [JSON.stringify] both leave out; or the empty object, when the key is
    [__proto__] and the lookup gives [Object.prototype] itself. *)
Inductive NetworkField : Type :=
| NetCode (n : Z)
| NetOmitted
| NetEmptyObject.

(** [apiPayload], as posted. *)
Record ApiPayload : Type := mkPayload {
  p_network : NetworkField;
  p_mobile_number : JsVal;
  p_amount : Z;
  p_airtime_type : string;
  p_Ported_number : bool
}.

Record ApiHeaders : Type := mkHeaders {
  h_content_type : string;
  h_authorization : string
}.

(** The body of a provider response that is not [null], seen through the
    two properties the handlers read; a property that the body lacks (an
    empty body is the empty string) reads [JUndefined].  A response whose
    body is the JSON value [null], on which a property read throws, has
    constructors of its own below. *)
Record ProviderData : Type := mkData {
  detail : JsVal;
  pmessage : JsVal
}.

Record HttpResponse : Type := mkHttp {
  r_status : Z;
  r_data : ProviderData
}.

(** The error [axios.post] rejects with: [error.response],
    [error.request] (set or not) and [error.message]. *)
Record AxiosError : Type := mkError {
  response : option HttpResponse;
  request : bool;
  err_message : string
}.

(** How the awaited promise settles.  [ResolvedNull] and [RejectedNull]
    are a 2xx response and an error response whose [data] is [null]. *)
Inductive Settled : Type :=
| Resolved (apiResponse : HttpResponse)
| Rejected (error : AxiosError)
| ResolvedNull (status : Z)
| RejectedNull (status : Z).

(** What happens upstream, and how axios settles the promise for it (its
    default [validateStatus] accepts exactly the statuses 200..299). *)
Inductive Upstream : Type :=
| Responds (r : HttpResponse)
| NoResponse (msg : string)
| NotSent (msg : string)
| RespondsNull (status : Z).   (* a response with the JSON body null *)

Definition is_2xx (s : Z) : bool := (200 <=? s) && (s <? 300).

Definition axios_post (u : Upstream) : Settled :=
  match u with
  | Responds r =>
      if is_2xx (r_status r) then Resolved r
      else Rejected (mkError (Some r) true
             ("Request failed with status code " ++ ToString (JNum (r_status r))))
  | NoResponse msg => Rejected (mkError None true msg)
  | NotSent msg => Rejected (mkError None false msg)
  | RespondsNull st => if is_2xx st then ResolvedNull st else RejectedNull st
  end.

(** *** Replies *)

Inductive Extra : Type :=
| NoExtra
| Data (d : ProviderData)
| State (s : SiteState)
| History (h : list Tx).

(** [res.status(status).json({ success, message, ... })] *)
Record Response : Type := mkResponse {
  status : Z;
  success : option bool;
  message : JsVal;
  extra : Extra
}.

Definition failure (code : Z) (msg : string) : Response :=
  mkResponse code (Some false) (JStr msg) NoExtra.

(** ** Handlers as trees of effects *)

(** [Unanswered] is a handler that throws outside its [try] block: the
    promise of the async function rejects and no reply is sent (what the
    runtime then does with the rejection is not modelled). *)
Inductive Handler : Type :=
| Reply (r : Response)
| Read (k : Ledger -> Handler)
| Update (f : Ledger -> Ledger) (k : Handler)
| NewDate (k : string -> Handler)
| Await (p : ApiPayload) (hd : ApiHeaders) (k : Settled -> Handler)
| Unanswered.

Inductive Event : Type :=
| ERead
| EUpdate
| EDate
| EPost (p : ApiPayload) (hd : ApiHeaders)
| EReply (r : Response)
| EThrow.

Inductive Outcome : Type :=
| Done (r : Response)
| Suspended (p : ApiPayload) (hd : ApiHeaders) (k : Settled -> Handler)
| NoReply.

Record Result : Type := mkResult {
  ledger_after : Ledger;
  events : list Event;
  outcome : Outcome
}.

Definition emit (e : Event) (res : Result) : Result :=
  mkResult (ledger_after res) (e :: events res) (outcome res).

(** One uninterrupted run of a handler, at clock reading [now], up to its
    reply or its next await. *)
Fixpoint run (now : string) (h : Handler) (L : Ledger) : Result :=
  match h with
  | Reply r => mkResult L [EReply r] (Done r)
  | Read k => emit ERead (run now (k L) L)
  | Update f k => emit EUpdate (run now k (f L))
  | NewDate k => emit EDate (run now (k now) L)
  | Await p hd k => mkResult L [EPost p hd] (Suspended p hd k)
  | Unanswered => mkResult L [EThrow] NoReply
  end.

Definition is_ledger_access (e : Event) : bool :=
  match e with
  | ERead | EUpdate => true
  | _ => false
  end.

Definition is_post (e : Event) : bool :=
  match e with
  | EPost _ _ => true
  | _ => false
  end.

Definition touches_ledger (ev : list Event) : bool := existsb is_ledger_access ev.
Definition calls_provider (ev : list Event) : bool := existsb is_post ev.

(** ** The routes *)

(** [/^0(70|80|81|90|91)\d{8}$/.test(s)] *)
Definition phoneRegex_test (s : string) : bool :=
  match s with
  | String "0" (String a (String b rest)) =>
      existsb (String.eqb (String a (String b EmptyString)))
              ["70"; "80"; "81"; "90"; "91"]
      && (Nat.eqb (String.length rest) 8)
      && forallb is_digit (list_ascii_of_string rest)
  | _ => false
  end.

(** [const networkIds = { 'MTN': 1, 'Glo': 2, '9mobile': 3, 'Airtel': 4 }] *)
Definition networkIds : list (string * Z) :=
  [("MTN", 1); ("Glo", 2); ("9mobile", 3); ("Airtel", 4)].

(** [networkIds[key]], the key converted to a string, as it is posted:
    the table's own entries first, then the prototype chain. *)
Definition networkIds_get (key : JsVal) : NetworkField :=
  match find (fun entry => (fst entry =? ToString key)%string) networkIds with
  | Some entry => NetCode (snd entry)
  | None => if (ToString key =? "__proto__")%string then NetEmptyObject else NetOmitted
  end.

Definition apiPayload (b : ReqBody) : ApiPayload :=
  mkPayload (networkIds_get (network b)) (mobile_number b) 100 "VTU" true.

Definition apiHeaders (env : Env) : ApiHeaders :=
  mkHeaders "application/json" ("Token " ++ API_KEY env).

(** [!network || !mobile_number] *)
Definition missing_fields (b : ReqBody) : bool :=
  negb (truthy (network b)) || negb (truthy (mobile_number b)).

(** The mutations of the shared state. *)
Definition set_site (f : SiteState -> SiteState) (L : Ledger) : Ledger :=
  mkLedger (f (siteState L)) (transactionHistory L).

Definition increment_claimsToday (L : Ledger) : Ledger :=
  set_site (fun s => mkSiteState (isSiteOnline s) (claimLimit s)
                       (claimsToday s + 1) (totalAmountToday s)) L.

Definition reset_claimsToday (L : Ledger) : Ledger :=
  set_site (fun s => mkSiteState (isSiteOnline s) (claimLimit s) 0
                       (totalAmountToday s)) L.

Definition toggle_isSiteOnline (L : Ledger) : Ledger :=
  set_site (fun s => mkSiteState (negb (isSiteOnline s)) (claimLimit s)
                       (claimsToday s) (totalAmountToday s)) L.

Definition set_claimLimit (n : Z) (L : Ledger) : Ledger :=
  set_site (fun s => mkSiteState (isSiteOnline s) n (claimsToday s)
                       (totalAmountToday s)) L.

Definition set_totalAmountToday (n : Z) (L : Ledger) : Ledger :=
  set_site (fun s => mkSiteState (isSiteOnline s) (claimLimit s)
                       (claimsToday s) (Some n)) L.

(** [transactionHistory.unshift(tx)] *)
Definition unshift (tx : Tx) (L : Ledger) : Ledger :=
  mkLedger (siteState L) (tx :: transactionHistory L).

(** *** POST /send-airtime *)

Definition site_unavailable : Response :=
  failure 503 "Site is currently unavailable. Please try later.".

Definition limit_reached : Response :=
  failure 429 "The daily airtime claim limit has been reached. Please try again later.".

Definition missing_required : Response :=
  failure 400 "Missing required fields: network and mobile_number.".

Definition invalid_phone : Response :=
  failure 400 "Invalid phone number format. Please provide an 11-digit Nigerian number.".

Definition server_configuration_error : Response :=
  failure 500 "Server configuration error. Unable to process request.".

Definition provider_unreachable : Response :=
  failure 503 "Airtime provider is unreachable. Please try again later.".

Definition internal_server_error : Response :=
  failure 500 "An internal server error occurred.".

Definition forbidden : Response := failure 403 "Invalid admin PIN.".

(** The handler from the point where [axios.post] settles: the rest of the
    [try] block, or the [catch] block.  With a [null] body the read
    [apiResponse.data.message] throws after the count and the log were
    updated, and the [catch] block answers the TypeError, which has
    neither [response] nor [request]; the read
    [error.response.data.detail] throws inside the [catch] block
    itself. *)
Definition send_airtime_settled (isAdminRequest : bool) (b : ReqBody)
    (s : Settled) : Handler :=
  match s with
  | Resolved apiResponse =>
      let log_and_reply :=
        NewDate (fun date =>
          Update (unshift (mkTx date (network b) (mobile_number b) 100 "Success"))
            (Reply (mkResponse 200 (Some true)
                      (js_or (pmessage (r_data apiResponse))
                          (JStr "Airtime request processed successfully!"))
                      (Data (r_data apiResponse))))) in
      if negb isAdminRequest
      then Update increment_claimsToday log_and_reply
      else log_and_reply
  | Rejected error =>
      match response error with
      | Some r =>
          Reply (mkResponse (r_status r) (Some false)
                   (js_or (js_or (detail (r_data r)) (pmessage (r_data r)))
                       (JStr "An error occurred with the airtime provider."))
                   NoExtra)
      | None =>
          if request error
          then Reply provider_unreachable
          else Reply internal_server_error
      end
  | ResolvedNull _ =>
      let log_and_throw :=
        NewDate (fun date =>
          Update (unshift (mkTx date (network b) (mobile_number b) 100 "Success"))
            (Reply internal_server_error)) in
      if negb isAdminRequest
      then Update increment_claimsToday log_and_throw
      else log_and_throw
  | RejectedNull _ => Unanswered
  end.

(** The handler from the comment "A. Input Validation" on. *)
Definition send_airtime_validated (env : Env) (isAdminRequest : bool)
    (b : ReqBody) : Handler :=
  if missing_fields b then Reply missing_required
  else if negb (phoneRegex_test (ToString (mobile_number b))) then Reply invalid_phone
  else if negb (truthy (JStr (API_KEY env))) then Reply server_configuration_error
  else Await (apiPayload b) (apiHeaders env) (send_airtime_settled isAdminRequest b).

Definition send_airtime (env : Env) (b : ReqBody) : Handler :=
  let isAdminRequest := strict_eq_str (mobile_number b) (ADMIN_PHONE env) in
  if negb isAdminRequest then
    Read (fun L =>
      if negb (isSiteOnline (siteState L)) then Reply site_unavailable
      else if claimsToday (siteState L) >=? claimLimit (siteState L)
      then Reply limit_reached
      else send_airtime_validated env isAdminRequest b)
  else send_airtime_validated env isAdminRequest b.

(** *** The admin router *)

Definition verifyAdminPin (b : ReqBody) (next : Handler) : Handler :=
  if negb (strict_eq_str (pin b) ADMIN_PIN)
  then Reply forbidden
  else next.

Definition admin_login (b : ReqBody) : Handler :=
  if strict_eq_str (pin b) ADMIN_PIN
  then Reply (mkResponse 200 (Some true) (JStr "Login successful.") NoExtra)
  else Reply (failure 401 "Invalid PIN.").

Definition is_success_status (st : string) : bool :=
  (st =? "Success")%string || (st =? "Success (Admin)")%string.

Definition admin_state : Handler :=
  NewDate (fun now =>
    let today := before_T now in
    Read (fun L =>
      let totalAmountToday :=
        fold_left (fun sum tx => sum + tx_amount tx)
          (filter (fun tx => startsWith (tx_date tx) today
                             && is_success_status (tx_status tx))
                  (transactionHistory L)) 0 in
      Update (set_totalAmountToday totalAmountToday)
        (Read (fun L' =>
           Reply (mkResponse 200 (Some true) JUndefined (State (siteState L'))))))).

Definition admin_history : Handler :=
  Read (fun L =>
    Reply (mkResponse 200 (Some true) JUndefined (History (transactionHistory L)))).

Definition on_off (b : bool) : string := if b then "ON" else "OFF".

Definition admin_toggle_site : Handler :=
  Update toggle_isSiteOnline
    (Read (fun L =>
       Reply (mkResponse 200 (Some true)
                (JStr ("Site is now " ++ on_off (isSiteOnline (siteState L)) ++ "."))
                (State (siteState L))))).

Definition admin_set_limit (b : ReqBody) : Handler :=
  match parseInt10 (limit b) with
  | None =>
      Reply (failure 400 "Invalid limit provided. Must be a non-negative number.")
  | Some newLimit =>
      if newLimit <? 0
      then Reply (failure 400 "Invalid limit provided. Must be a non-negative number.")
      else
        Update (set_claimLimit newLimit)
          (Read (fun L =>
             Reply (mkResponse 200 (Some true)
                      (JStr ("Claim limit updated to " ++ ToString (JNum newLimit) ++ "."))
                      (State (siteState L)))))
  end.

Definition admin_reset_count : Handler :=
  Update reset_claimsToday
    (Read (fun L =>
       Reply (mkResponse 200 (Some true) (JStr "Claim count has been reset.")
                (State (siteState L))))).

Definition admin_send_settled (b : ReqBody) (s : Settled) : Handler :=
  match s with
  | Resolved apiResponse =>
      NewDate (fun date =>
        Update (unshift (mkTx date (network b) (mobile_number b) 100 "Success (Admin)"))
          (Reply (mkResponse 200 (Some true)
                    (JStr ("Admin send successful: "
                           ++ ToString (js_or (pmessage (r_data apiResponse))
                                           (JStr "Airtime request processed."))))
                    (Data (r_data apiResponse)))))
  | Rejected error =>
      let statusCode :=
        match response error with
        | Some r => r_status r
        | None => 500
        end in
      let errorMessage :=
        match response error with
        | Some r => js_or (detail (r_data r)) (pmessage (r_data r))
        | None => JStr "An internal error occurred."
        end in
      Reply (mkResponse statusCode (Some false) errorMessage NoExtra)
  | ResolvedNull _ =>
      NewDate (fun date =>
        Update (unshift (mkTx date (network b) (mobile_number b) 100 "Success (Admin)"))
          (Reply (mkResponse 500 (Some false) (JStr "An internal error occurred.") NoExtra)))
  | RejectedNull _ => Unanswered
  end.

Definition admin_send_airtime (env : Env) (b : ReqBody) : Handler :=
  if missing_fields b then Reply missing_required
  else Await (apiPayload b) (apiHeaders env) (admin_send_settled b).

(** *** The application *)

Inductive Route : Type :=
| GET_root
| POST_send_airtime
| POST_admin_login
| POST_admin_state
| POST_admin_history
| POST_admin_toggle_site
| POST_admin_set_limit
| POST_admin_reset_count
| POST_admin_send_airtime.

Record Req : Type := mkReq {
  route : Route;
  body : ReqBody
}.

(** The routes in the order they are mounted: [/admin/login] comes before
    [adminRouter.use(verifyAdminPin)], the other admin routes after it. *)
Definition app (env : Env) (req : Req) : Handler :=
  let b := body req in
  match route req with
  | GET_root =>
      Reply (mkResponse 200 None (JStr "Polsa Grant Backend is running!") NoExtra)
  | POST_send_airtime => send_airtime env b
  | POST_admin_login => admin_login b
  | POST_admin_state => verifyAdminPin b admin_state
  | POST_admin_history => verifyAdminPin b admin_history
  | POST_admin_toggle_site => verifyAdminPin b admin_toggle_site
  | POST_admin_set_limit => verifyAdminPin b (admin_set_limit b)
  | POST_admin_reset_count => verifyAdminPin b admin_reset_count
  | POST_admin_send_airtime => verifyAdminPin b (admin_send_airtime env b)
  end.

(** ** The event loop *)

(** The shared state and the handlers suspended at their await. *)
Record World : Type := mkWorld {
  ledger : Ledger;
  inflight : list (Settled -> Handler)
}.

Inductive Input : Type :=
| Incoming (now : string) (req : Req)
| Settles (now : string) (i : nat) (s : Settled).

Fixpoint remove_nth {A : Type} (i : nat) (l : list A) : list A :=
  match l, i with
  | [], _ => []
  | _ :: r, O => r
  | x :: r, S j => x :: remove_nth j r
  end.

Definition resume (others : list (Settled -> Handler)) (res : Result)
    : World * option Response :=
  match outcome res with
  | Done r => (mkWorld (ledger_after res) others, Some r)
  | Suspended _ _ k => (mkWorld (ledger_after res) (others ++ [k]), None)
  | NoReply => (mkWorld (ledger_after res) others, None)
  end.

(** One turn of the loop: a request arrives and its handler runs up to its
    reply or its await, or the promise of the [i]-th suspended handler
    settles and that handler runs on. *)
Definition step (env : Env) (w : World) (i : Input) : World * option Response :=
  match i with
  | Incoming now req => resume (inflight w) (run now (app env req) (ledger w))
  | Settles now n s =>
      match nth_error (inflight w) n with
      | Some k => resume (remove_nth n (inflight w)) (run now (k s) (ledger w))
      | None => (w, None)
      end
  end.

(** The loop over a schedule; the replies sent, oldest first. *)
Fixpoint steps (env : Env) (w : World) (sched : list Input)
    : World * list Response :=
  match sched with
  | [] => (w, [])
  | i :: rest =>
      let '(w1, r) := step env w i in
      let '(w2, rs) := steps env w1 rest in
      (w2, match r with Some x => x :: rs | None => rs end)
  end.

Definition initial_world : World := mkWorld initial_ledger [].

Inductive reachable (env : Env) : World -> Prop :=
| reach_init : reachable env initial_world
| reach_step w i : reachable env w -> reachable env (fst (step env w i)).

(** ** Predicates used by the statements *)

(** A handler none of whose updates lowers [claimsToday], whatever it
    reads and however its provider call settles. *)
Inductive keeps_count : Handler -> Prop :=
| kc_reply r : keeps_count (Reply r)
| kc_read k : (forall L, keeps_count (k L)) -> keeps_count (Read k)
| kc_update f k :
    (forall L, claimsToday (siteState L) <= claimsToday (siteState (f L))) ->
    keeps_count k -> keeps_count (Update f k)
| kc_date k : (forall d, keeps_count (k d)) -> keeps_count (NewDate k)
| kc_await p hd k : (forall s, keeps_count (k s)) -> keeps_count (Await p hd k)
| kc_unanswered : keeps_count Unanswered.

(** The input is a request to [/admin/reset-count] carrying the PIN. *)
Definition is_reset (i : Input) : Prop :=
  exists now b,
    i = Incoming now (mkReq POST_admin_reset_count b) /\ pin b = JStr ADMIN_PIN.

(** The validation of [POST /send-airtime] lets the body through. *)
Definition well_formed (b : ReqBody) : Prop :=
  missing_fields b = false /\ phoneRegex_test (ToString (mobile_number b)) = true.

Definition count (L : Ledger) : Z := claimsToday (siteState L).

(** [!network || !mobile_number] is false and the phone test succeeds. *)
Definition passes_validation (b : ReqBody) : bool :=
  negb (missing_fields b) && phoneRegex_test (ToString (mobile_number b)).

(** The upstream answered with a 2xx status. *)
Definition succeeded (u : Upstream) : bool :=
  match u with
  | Responds r => is_2xx (r_status r)
  | RespondsNull st => is_2xx st
  | NoResponse _ | NotSent _ => false
  end.

(** The upstream answered with a 2xx status and a body that is not
    [null]. *)
Definition succeeded_with_body (u : Upstream) : bool :=
  match u with
  | Responds r => is_2xx (r_status r)
  | RespondsNull _ | NoResponse _ | NotSent _ => false
  end.


(** The routes of the admin router behind [verifyAdminPin]: all of them
    but [/admin/login]. *)
Definition pin_protected (rt : Route) : bool :=
  match rt with
  | POST_admin_state | POST_admin_history | POST_admin_toggle_site
  | POST_admin_set_limit | POST_admin_reset_count | POST_admin_send_airtime => true
  | GET_root | POST_send_airtime | POST_admin_login => false
  end.

(** Claims served one after the other: each provider call settles before
    the next claim arrives. *)
Definition sequential (now : string) (claims : list (ReqBody * Upstream)) : list Input :=
  flat_map (fun c => [Incoming now (mkReq POST_send_airtime (fst c));
                      Settles now 0 (axios_post (snd c))]) claims.

(** A well-formed claim from a phone other than the admin phone, which the
    provider answers with a 2xx status and a body that is not [null]. *)
Definition admissible (env : Env) (c : ReqBody * Upstream) : Prop :=
  strict_eq_str (mobile_number (fst c)) (ADMIN_PHONE env) = false
  /\ well_formed (fst c)
  /\ succeeded_with_body (snd c) = true.

(** *** The Admission Policy as the design document words it

    The decision of section 4.2 of the design, written from its text, to
    be compared with what [send_airtime] does. *)
Inductive AdmissionDecision : Type :=
| AdminBypass
| SiteOffline
| QuotaExceeded
| Granted.   (* the design's Admitted *)

Definition spec_evaluate (ledgerSnapshot : SiteState) (phoneNumber : JsVal)
    (adminPhone : string) : AdmissionDecision :=
  if strict_eq_str phoneNumber adminPhone then AdminBypass
  else if negb (isSiteOnline ledgerSnapshot) then SiteOffline
  else if claimsToday ledgerSnapshot >=? claimLimit ledgerSnapshot then QuotaExceeded
  else Granted.

Definition allowed (d : AdmissionDecision) : bool :=
  match d with
  | AdminBypass | Granted => true
  | SiteOffline | QuotaExceeded => false
  end.

(** ** The earlier server, without admission (backend.js)

    The same route before the shared state and the admin router were
    added: validation, the configuration check and the provider call. *)
Module Backend.

(** [const API_KEY = process.env.API_KEY] *)
Definition API_KEY (env : Env) : JsVal :=
  match env_API_KEY env with
  | Some s => JStr s
  | None => JUndefined
  end.

Definition apiHeaders (env : Env) : ApiHeaders :=
  mkHeaders "application/json" ("Token " ++ ToString (API_KEY env)).

Definition send_airtime_settled (s : Settled) : Handler :=
  match s with
  | Resolved apiResponse =>
      Reply (mkResponse 200 (Some true)
               (js_or (pmessage (r_data apiResponse))
                   (JStr "Airtime request processed successfully!"))
               (Data (r_data apiResponse)))
  | Rejected error =>
      match response error with
      | Some r =>
          Reply (mkResponse (r_status r) (Some false)
                   (js_or (js_or (detail (r_data r)) (pmessage (r_data r)))
                       (JStr "An error occurred with the airtime provider."))
                   NoExtra)
      | None =>
          if request error
          then Reply provider_unreachable
          else Reply internal_server_error
      end
  | ResolvedNull _ => Reply internal_server_error
  | RejectedNull _ => Unanswered
  end.

Definition send_airtime (env : Env) (b : ReqBody) : Handler :=
  if missing_fields b then Reply missing_required
  else if negb (phoneRegex_test (ToString (mobile_number b))) then Reply invalid_phone
  else if negb (truthy (API_KEY env)) then Reply server_configuration_error
  else Await (apiPayload b) (apiHeaders env) send_airtime_settled.

End Backend.

(** ** Further predicates and replies used by the statements *)

(** The two handlers that wait for the provider. *)
Definition awaits_provider (k : Settled -> Handler) : Prop :=
  (exists isAdminRequest b, k = send_airtime_settled isAdminRequest b)
  \/ (exists b, k = admin_send_settled b).

(** The input is a request to the admin route [rt] carrying the PIN. *)
Definition with_pin (rt : Route) (i : Input) : Prop :=
  exists now b, i = Incoming now (mkReq rt b) /\ pin b = JStr ADMIN_PIN.

(** A record as the two sends write it. *)
Definition record_ok (tx : Tx) : Prop :=
  tx_amount tx = 100 /\ is_success_status (tx_status tx) = true.

(** The number of records with status [Success]. *)
Definition counted (h : list Tx) : Z :=
  Z.of_nat (List.length (filter (fun tx => (tx_status tx =? "Success")%string) h)).

(** The records whose date starts with [today]. *)
Definition of_day (today : string) (h : list Tx) : list Tx :=
  filter (fun tx => startsWith (tx_date tx) today) h.


(** The replies of [/admin/set-limit], [/admin/toggle-site] and
    [/admin/login]. *)
Definition limit_updated (n : Z) (s : SiteState) : Response :=
  mkResponse 200 (Some true)
    (JStr ("Claim limit updated to " ++ ToString (JNum n) ++ ".")) (State s).

Definition invalid_limit : Response :=
  failure 400 "Invalid limit provided. Must be a non-negative number.".

Definition site_is_now (s : SiteState) : Response :=
  mkResponse 200 (Some true)
    (JStr ("Site is now " ++ on_off (isSiteOnline s) ++ ".")) (State s).

Definition login_successful : Response :=
  mkResponse 200 (Some true) (JStr "Login successful.") NoExtra.

Definition invalid_pin : Response := failure 401 "Invalid PIN.".

(** The alternatives of the phone pattern, with the leading zero. *)
Definition phone_prefixes : list string := ["070"; "080"; "081"; "090"; "091"].

(** Claims that all arrive before any provider call settles. *)
Definition arrivals (now : string) (bs : list ReqBody) : list Input :=
  map (fun b => Incoming now (mkReq POST_send_airtime b)) bs.

Definition settlements (now : string) (us : list Upstream) : list Input :=
  map (fun u => Settles now 0 (axios_post u)) us.

(** ** Basic facts *)

Lemma strict_eq_str_true v s : strict_eq_str v s = true <-> v = JStr s.
Proof.
  destruct v; simpl; split; try discriminate.
  - intros H. apply String.eqb_eq in H. now subst.
  - intros H. injection H as ->. apply String.eqb_refl.
Qed.

Lemma env_or_nonempty v fallback : fallback <> "" -> env_or v fallback <> "".
Proof.
  intros Hf. unfold env_or. destruct v as [s|]; [|exact Hf].
  simpl. destruct (String.eqb_spec s ""); simpl; assumption.
Qed.

Lemma API_KEY_truthy env : truthy (JStr (API_KEY env)) = true.
Proof.
  simpl. apply negb_true_iff. apply String.eqb_neq.
  apply env_or_nonempty. discriminate.
Qed.

Lemma send_airtime_validated_ok env isAdminRequest b :
  well_formed b ->
  send_airtime_validated env isAdminRequest b
  = Await (apiPayload b) (apiHeaders env) (send_airtime_settled isAdminRequest b).
Proof.
  intros [Hm Hp]. unfold send_airtime_validated.
  now rewrite Hm, Hp, API_KEY_truthy.
Qed.

Lemma keeps_count_run now h :
  keeps_count h -> forall L, count L <= count (ledger_after (run now h L)).
Proof.
  induction 1 as [r | k _ IH | f k Hf _ IH | k _ IH | p hd k _ _ |]; intros L; simpl.
  - lia.
  - apply IH.
  - specialize (IH (f L)). specialize (Hf L). unfold count in *. lia.
  - apply IH.
  - lia.
  - lia.
Qed.

Lemma keeps_count_suspended now h :
  keeps_count h -> forall L p hd k,
  outcome (run now h L) = Suspended p hd k -> forall s, keeps_count (k s).
Proof.
  induction 1 as [r | k _ IH | f k Hf _ IH | k _ IH | p hd k Hk _ |];
    intros L p' hd' k' Ho; simpl in Ho.
  - discriminate.
  - eapply IH; eassumption.
  - eapply IH; eassumption.
  - eapply IH; eassumption.
  - injection Ho as _ _ <-. exact Hk.
  - discriminate.
Qed.

Lemma keeps_count_send_airtime_settled isAdminRequest b s :
  keeps_count (send_airtime_settled isAdminRequest b s).
Proof.
  destruct s as [r | e | st | st]; simpl.
  - destruct isAdminRequest; simpl.
    + constructor. intros d. constructor; [intros L; simpl; lia | constructor].
    + constructor; [intros L; simpl; lia |].
      constructor. intros d. constructor; [intros L; simpl; lia | constructor].
  - destruct (response e); [constructor|]. destruct (request e); constructor.
  - destruct isAdminRequest; simpl.
    + constructor. intros d. constructor; [intros L; simpl; lia | constructor].
    + constructor; [intros L; simpl; lia |].
      constructor. intros d. constructor; [intros L; simpl; lia | constructor].
  - constructor.
Qed.

Lemma keeps_count_send_airtime_validated env isAdminRequest b :
  keeps_count (send_airtime_validated env isAdminRequest b).
Proof.
  unfold send_airtime_validated.
  repeat match goal with |- keeps_count (if ?c then _ else _) => destruct c end;
    constructor.
  apply keeps_count_send_airtime_settled.
Qed.

Lemma keeps_count_send_airtime env b : keeps_count (send_airtime env b).
Proof.
  unfold send_airtime. destruct (strict_eq_str _ _); simpl.
  - apply keeps_count_send_airtime_validated.
  - constructor. intros L.
    repeat match goal with |- keeps_count (if ?c then _ else _) => destruct c end;
      try constructor.
    apply keeps_count_send_airtime_validated.
Qed.

Lemma keeps_count_admin_send_settled b s : keeps_count (admin_send_settled b s).
Proof.
  destruct s as [r | e | st | st]; simpl.
  - constructor. intros d. constructor; [intros L; simpl; lia | constructor].
  - constructor.
  - constructor. intros d. constructor; [intros L; simpl; lia | constructor].
  - constructor.
Qed.

Lemma keeps_count_verifyAdminPin b next :
  keeps_count next -> keeps_count (verifyAdminPin b next).
Proof.
  intros H. unfold verifyAdminPin. destruct (negb _); [constructor | exact H].
Qed.

(** Every route but a reset that passes the PIN gate keeps the count. *)
Lemma keeps_count_app env req :
  keeps_count (app env req)
  \/ (route req = POST_admin_reset_count /\ pin (body req) = JStr ADMIN_PIN).
Proof.
  destruct req as [rt b]. unfold app; simpl.
  destruct rt.
  - left. constructor.
  - left. apply keeps_count_send_airtime.
  - left. unfold admin_login. destruct (strict_eq_str _ _); constructor.
  - left. apply keeps_count_verifyAdminPin.
    constructor. intros d. constructor. intros L.
    constructor; [intros L'; simpl; lia |]. constructor. intros L'. constructor.
  - left. apply keeps_count_verifyAdminPin. constructor. intros L. constructor.
  - left. apply keeps_count_verifyAdminPin.
    constructor; [intros L; simpl; lia |]. constructor. intros L. constructor.
  - left. apply keeps_count_verifyAdminPin.
    unfold admin_set_limit. destruct (parseInt10 _) as [n|]; [|constructor].
    destruct (n <? 0); constructor; [intros L; simpl; lia |].
    constructor. intros L. constructor.
  - unfold verifyAdminPin.
    destruct (strict_eq_str (pin b) ADMIN_PIN) eqn:Hp; simpl.
    + right. split; [reflexivity | now apply strict_eq_str_true].
    + left. constructor.
  - left. apply keeps_count_verifyAdminPin.
    unfold admin_send_airtime. destruct (missing_fields b); constructor.
    apply keeps_count_admin_send_settled.
Qed.

Lemma Forall_remove_nth {A} (P : A -> Prop) n (l : list A) :
  Forall P l -> Forall P (remove_nth n l).
Proof.
  intros H. revert n. induction H as [| x l Hx Hl IH]; intros [| n]; simpl;
    try constructor; auto.
Qed.

Lemma resume_inflight (P : (Settled -> Handler) -> Prop) others res :
  Forall P others ->
  (forall p hd k, outcome res = Suspended p hd k -> P k) ->
  Forall P (inflight (fst (resume others res))).
Proof.
  intros Ho Hk. unfold resume. destruct (outcome res) as [r | p hd k |] eqn:E; simpl.
  - exact Ho.
  - apply Forall_app. split; [exact Ho |]. constructor; [eauto | constructor].
  - exact Ho.
Qed.

Lemma resume_ledger others res :
  ledger (fst (resume others res)) = ledger_after res.
Proof. unfold resume. now destruct (outcome res). Qed.

(** Every handler suspended in a reachable world keeps the count when it
    runs on. *)
Lemma reachable_inflight env w :
  reachable env w -> Forall (fun k => forall s, keeps_count (k s)) (inflight w).
Proof.
  induction 1 as [| w i _ IH]; [constructor |].
  destruct i as [now req | now n s]; simpl.
  - apply resume_inflight; [exact IH |].
    intros p hd k Ho.
    destruct (keeps_count_app env req) as [Hk | [Hr Hp]].
    + eapply keeps_count_suspended; eassumption.
    + destruct req as [rt b]; simpl in *; subst rt.
      unfold app in Ho; simpl in Ho. unfold verifyAdminPin in Ho.
      rewrite Hp in Ho. discriminate.
  - destruct (nth_error (inflight w) n) as [k|] eqn:E; [| exact IH].
    apply resume_inflight; [now apply Forall_remove_nth |].
    intros p hd k' Ho.
    apply nth_error_In in E.
    rewrite Forall_forall in IH. specialize (IH k E s).
    eapply keeps_count_suspended; eassumption.
Qed.

Lemma run_send_airtime_let_through env b now L :
  strict_eq_str (mobile_number b) (ADMIN_PHONE env) = false ->
  well_formed b ->
  isSiteOnline (siteState L) = true ->
  claimsToday (siteState L) < claimLimit (siteState L) ->
  run now (send_airtime env b) L
  = mkResult L [ERead; EPost (apiPayload b) (apiHeaders env)]
      (Suspended (apiPayload b) (apiHeaders env) (send_airtime_settled false b)).
Proof.
  intros Ha Hw Ho Hq. unfold send_airtime. rewrite Ha. simpl.
  rewrite Ho. simpl.
  rewrite Z.geb_leb. rewrite (proj2 (Z.leb_gt _ _) Hq).
  now rewrite (send_airtime_validated_ok env false b Hw).
Qed.

(** ** Counting of successful claims *)

Lemma is_reset_dec i : is_reset i \/ ~ is_reset i.
Proof.
  destruct i as [now [rt b] | now n s].
  - destruct (strict_eq_str (pin b) ADMIN_PIN) eqn:Hp.
    + apply strict_eq_str_true in Hp.
      destruct rt; try (right; intros (now' & b' & [= _ Hrt _] & _); discriminate Hrt).
      left. exists now, b. now split.
    + right. intros (now' & b' & [= _ _ <-] & Hpin).
      rewrite Hpin in Hp. simpl in Hp. discriminate Hp.
  - right. intros (now' & b' & H & _). discriminate H.
Qed.

(** C1.  A well-formed claim from a phone other than the admin phone,
    arriving while the site is online and under quota, is forwarded to the
    provider; when the provider answers 2xx the handler, on whatever
    ledger it resumes, adds exactly one to [claimsToday] and puts the
    transaction record at the front of the history (and replies 200 when
    the body is not [null]).  In every turn of the event loop from the
    initial state, a reset-count request with the PIN sets [claimsToday]
    to 0, and any other input does not decrease it. *)
Theorem claim_counted_once_and_count_monotone (env : Env) :
  (forall b now L,
      strict_eq_str (mobile_number b) (ADMIN_PHONE env) = false ->
      well_formed b ->
      isSiteOnline (siteState L) = true ->
      claimsToday (siteState L) < claimLimit (siteState L) ->
      run now (send_airtime env b) L
      = mkResult L [ERead; EPost (apiPayload b) (apiHeaders env)]
          (Suspended (apiPayload b) (apiHeaders env) (send_airtime_settled false b))
      /\ (forall u now' L',
             succeeded u = true ->
             let res := run now' (send_airtime_settled false b (axios_post u)) L' in
             claimsToday (siteState (ledger_after res)) = claimsToday (siteState L') + 1
             /\ isSiteOnline (siteState (ledger_after res)) = isSiteOnline (siteState L')
             /\ claimLimit (siteState (ledger_after res)) = claimLimit (siteState L')
             /\ transactionHistory (ledger_after res)
                = mkTx now' (network b) (mobile_number b) 100 "Success"
                  :: transactionHistory L')
      /\ (forall r now' L',
             is_2xx (r_status r) = true ->
             exists m,
               outcome (run now' (send_airtime_settled false b (axios_post (Responds r))) L')
               = Done (mkResponse 200 (Some true) m (Data (r_data r)))))
  /\ (forall w i,
        reachable env w ->
        (is_reset i /\ count (ledger (fst (step env w i))) = 0)
        \/ (~ is_reset i /\ count (ledger w) <= count (ledger (fst (step env w i))))).
Proof.
  split.
  - intros b now L Ha Hw Ho Hq. split; [| split].
    + now apply run_send_airtime_let_through.
    + intros u now' L' Hu.
      destruct u as [r | m | m | st]; simpl in Hu; try discriminate Hu;
        unfold axios_post; rewrite Hu; simpl; repeat split.
    + intros r now' L' H2. unfold axios_post. rewrite H2. simpl.
      eexists. reflexivity.
  - intros w i Hr. destruct (is_reset_dec i) as [Hi | Hi].
    + left. split; [exact Hi |].
      destruct Hi as (now & b & -> & Hp). simpl. rewrite resume_ledger.
      unfold app; simpl. unfold verifyAdminPin. rewrite Hp. reflexivity.
    + right. split; [exact Hi |].
      destruct i as [now req | now n s]; simpl.
      * rewrite resume_ledger.
        destruct (keeps_count_app env req) as [Hk | [Hrt Hp]].
        -- now apply keeps_count_run.
        -- exfalso. apply Hi. destruct req as [rt b]; simpl in *; subst rt.
           exists now, b. now split.
      * destruct (nth_error (inflight w) n) as [k|] eqn:E; simpl; [| lia].
        rewrite resume_ledger. apply keeps_count_run.
        pose proof (reachable_inflight env w Hr) as Hall.
        rewrite Forall_forall in Hall. apply Hall. eapply nth_error_In; eassumption.
Qed.

Lemma claim_counted_once_and_count_monotone_witness :
  let env := mkEnv None None in
  let b := mkBody JUndefined JUndefined (JStr "MTN") (JStr "08012345678") in
  let admin := mkBody (JStr "226688") JUndefined JUndefined JUndefined in
  let u := Responds (mkHttp 200 (mkData JUndefined (JStr "Airtime sent"))) in
  let res := run "2024-05-01T10:00:00.000Z"
               (send_airtime_settled false b (axios_post u)) initial_ledger in
  let w := fst (step env
                  (fst (step env initial_world
                          (Incoming "2024-05-01T09:59:59.000Z" (mkReq POST_send_airtime b))))
                  (Settles "2024-05-01T10:00:00.000Z" 0 (axios_post u))) in
  let reset := Incoming "2024-05-01T11:00:00.000Z" (mkReq POST_admin_reset_count admin) in
  claimsToday (siteState (ledger_after res)) = 1
  /\ transactionHistory (ledger_after res)
     = [mkTx "2024-05-01T10:00:00.000Z" (JStr "MTN") (JStr "08012345678") 100 "Success"]
  /\ count (ledger w) = 1
  /\ count (ledger (fst (step env w reset))) = 0.
Proof.
  intros env b admin u res w reset.
  destruct (claim_counted_once_and_count_monotone env) as [Hclaim Hmono].
  destruct (Hclaim b "t0" initial_ledger) as (_ & Hsettled & _).
  - reflexivity.
  - split; reflexivity.
  - reflexivity.
  - reflexivity.
  - destruct (Hsettled u "2024-05-01T10:00:00.000Z" initial_ledger eq_refl)
      as (Hcount & _ & _ & Hlog).
    split; [exact Hcount |]. split; [exact Hlog |]. split; [reflexivity |].
    destruct (Hmono w reset) as [[_ H0] | [Hn _]].
    + apply reach_step, reach_step, reach_init.
    + exact H0.
    + exfalso. apply Hn. exists "2024-05-01T11:00:00.000Z", admin. split; reflexivity.
Defined.

(** ** Claims in flight at the same time *)

(** C2.  With the limit set to 1, two well-formed claims that both arrive
    before either provider call settles both pass the quota check; both
    are then counted and logged, so the day ends with [claimsToday = 2]
    above [claimLimit = 1] and no claim denied. *)
Theorem concurrent_claims_exceed_limit :
  let env := mkEnv None None in
  let admin := mkBody (JStr "226688") (JNum 1) JUndefined JUndefined in
  let first := mkBody JUndefined JUndefined (JStr "MTN") (JStr "08012345678") in
  let second := mkBody JUndefined JUndefined (JStr "Glo") (JStr "08112345678") in
  let ok := axios_post (Responds (mkHttp 200 (mkData JUndefined (JStr "Airtime sent")))) in
  let sched :=
    [ Incoming "2024-05-01T10:00:00.000Z" (mkReq POST_admin_set_limit admin);
      Incoming "2024-05-01T10:00:01.000Z" (mkReq POST_send_airtime first);
      Incoming "2024-05-01T10:00:01.100Z" (mkReq POST_send_airtime second);
      Settles "2024-05-01T10:00:02.000Z" 0 ok;
      Settles "2024-05-01T10:00:02.100Z" 0 ok ] in
  let w := fst (steps env initial_world sched) in
  claimLimit (siteState (ledger w)) = 1
  /\ claimsToday (siteState (ledger w)) = 2
  /\ map tx_mobile_number (transactionHistory (ledger w))
     = [JStr "08112345678"; JStr "08012345678"]
  /\ map status (snd (steps env initial_world sched)) = [200; 200; 200]
  /\ inflight w = [].
Proof. repeat split. Qed.

(** *** Claims served one at a time *)

Lemma step_claim_under_quota env now b L others :
  strict_eq_str (mobile_number b) (ADMIN_PHONE env) = false ->
  well_formed b ->
  isSiteOnline (siteState L) = true ->
  claimsToday (siteState L) < claimLimit (siteState L) ->
  step env (mkWorld L others) (Incoming now (mkReq POST_send_airtime b))
  = (mkWorld L (others ++ [send_airtime_settled false b]), None).
Proof.
  intros Ha Hw Ho Hq. unfold step, app; simpl.
  now rewrite run_send_airtime_let_through.
Qed.

Lemma step_claim_over_quota env now b L others :
  strict_eq_str (mobile_number b) (ADMIN_PHONE env) = false ->
  isSiteOnline (siteState L) = true ->
  claimLimit (siteState L) <= claimsToday (siteState L) ->
  step env (mkWorld L others) (Incoming now (mkReq POST_send_airtime b))
  = (mkWorld L others, Some limit_reached).
Proof.
  intros Ha Ho Hq. unfold step, app, send_airtime; simpl.
  rewrite Ha; simpl. rewrite Ho; simpl.
  rewrite Z.geb_leb, (proj2 (Z.leb_le _ _) Hq). reflexivity.
Qed.

Lemma step_settle_success env now b L rest u :
  succeeded_with_body u = true ->
  exists r,
    step env (mkWorld L (send_airtime_settled false b :: rest))
      (Settles now 0 (axios_post u))
    = (mkWorld (unshift (mkTx now (network b) (mobile_number b) 100 "Success")
                  (increment_claimsToday L)) rest, Some r)
    /\ status r = 200.
Proof.
  destruct u as [r | m | m | st]; simpl; try discriminate.
  intros H2. rewrite H2. eexists. split; reflexivity.
Qed.

(** X20.  Served one after the other from an online site, claims that
    the provider answers 2xx with a body that is not [null] are let
    through and answered 200 until the limit is reached, and denied with
    429 from then on: the count ends at the limit and nothing is lost or
    counted twice. *)
Theorem sequential_claims_respect_limit env now claims : forall L,
  Forall (admissible env) claims ->
  isSiteOnline (siteState L) = true ->
  claimsToday (siteState L) <= claimLimit (siteState L) ->
  let res := steps env (mkWorld L []) (sequential now claims) in
  let n := Z.of_nat (length claims) in
  let a := Z.min n (claimLimit (siteState L) - claimsToday (siteState L)) in
  inflight (fst res) = []
  /\ isSiteOnline (siteState (ledger (fst res))) = true
  /\ claimLimit (siteState (ledger (fst res))) = claimLimit (siteState L)
  /\ claimsToday (siteState (ledger (fst res))) = claimsToday (siteState L) + a
  /\ map status (snd res) = (repeat 200 (Z.to_nat a) ++ repeat 429 (Z.to_nat (n - a)))%list.
Proof.
  induction claims as [| [b u] cs IH]; intros L Hall Ho Hq.
  - cbv zeta. cbn [length Z.of_nat]. rewrite Z.min_l by lia.
    simpl. repeat split; [assumption | lia].
  - inversion Hall as [| c cs' [Ha [Hw Hs]] Hrest]; subst. simpl in Ha, Hw, Hs.
    cbv zeta. change (sequential now ((b, u) :: cs))
      with (Incoming now (mkReq POST_send_airtime b)
            :: Settles now 0 (axios_post u) :: sequential now cs).
    cbn [steps].
    destruct (Z.lt_ge_cases (claimsToday (siteState L)) (claimLimit (siteState L)))
      as [Hlt | Hge].
    + rewrite (step_claim_under_quota env now b L [] Ha Hw Ho Hlt). cbn [List.app].
      destruct (step_settle_success env now b L [] u Hs) as (r & -> & Hr).
      set (L1 := unshift _ (increment_claimsToday L)).
      specialize (IH L1 Hrest Ho).
      assert (H1 : claimsToday (siteState L1) = claimsToday (siteState L) + 1) by reflexivity.
      assert (H2 : claimLimit (siteState L1) = claimLimit (siteState L)) by reflexivity.
      rewrite H1, H2 in IH. specialize (IH ltac:(lia)). cbv zeta in IH.
      destruct (steps env (mkWorld L1 []) (sequential now cs)) as [w2 rs].
      simpl fst in *. simpl snd in *.
      destruct IH as (Hi & Hon & Hl & Hc & Hst). repeat split; auto.
      * rewrite Hc. cbn [length]. lia.
      * cbn [map length]. rewrite Hr, Hst.
        set (a' := Z.min (Z.of_nat (length cs))
                     (claimLimit (siteState L) - (claimsToday (siteState L) + 1))).
        assert (Ea : Z.min (Z.of_nat (S (length cs)))
                       (claimLimit (siteState L) - claimsToday (siteState L)) = 1 + a')
          by (unfold a'; lia).
        rewrite Ea.
        replace (Z.to_nat (1 + a')) with (S (Z.to_nat a')) by (unfold a'; lia).
        replace (Z.of_nat (S (length cs)) - (1 + a')) with (Z.of_nat (length cs) - a') by lia.
        reflexivity.
    + rewrite (step_claim_over_quota env now b L [] Ha Ho Hge).
      cbn [step nth_error inflight].
      specialize (IH L Hrest Ho Hq). cbv zeta in IH.
      destruct (steps env (mkWorld L []) (sequential now cs)) as [w2 rs].
      simpl fst in *. simpl snd in *.
      destruct IH as (Hi & Hon & Hl & Hc & Hst). repeat split; auto.
      * rewrite Hc. cbn [length]. lia.
      * cbn [map length]. rewrite Hst.
        assert (E0 : claimLimit (siteState L) - claimsToday (siteState L) = 0) by lia.
        rewrite E0. rewrite !Z.min_r by lia.
        rewrite !Z.sub_0_r, !Nat2Z.id. reflexivity.
Qed.

Example two_sequential_claims_limit_one :
  let env := mkEnv None None in
  let first := mkBody JUndefined JUndefined (JStr "MTN") (JStr "08012345678") in
  let second := mkBody JUndefined JUndefined (JStr "Glo") (JStr "08112345678") in
  let ok := Responds (mkHttp 200 (mkData JUndefined (JStr "Airtime sent"))) in
  let res := steps env (mkWorld (mkLedger (mkSiteState true 1 0 None) []) [])
               (sequential "2024-05-01T10:00:00.000Z" [(first, ok); (second, ok)]) in
  claimsToday (siteState (ledger (fst res))) = 1
  /\ map status (snd res) = [200; 429].
Proof. split; reflexivity. Qed.

(** ** The admission decision *)

Lemma spec_evaluate_cases s phone adminPhone :
  spec_evaluate s phone adminPhone
  = if strict_eq_str phone adminPhone then AdminBypass
    else if isSiteOnline s
         then if claimsToday s >=? claimLimit s then QuotaExceeded else Granted
         else SiteOffline.
Proof. unfold spec_evaluate. now destruct (strict_eq_str _ _), (isSiteOnline s). Qed.

Lemma run_send_airtime_validated env isAdminRequest b now L :
  run now (send_airtime_validated env isAdminRequest b) L
  = if missing_fields b then mkResult L [EReply missing_required] (Done missing_required)
    else if phoneRegex_test (ToString (mobile_number b))
    then mkResult L [EPost (apiPayload b) (apiHeaders env)]
           (Suspended (apiPayload b) (apiHeaders env)
              (send_airtime_settled isAdminRequest b))
    else mkResult L [EReply invalid_phone] (Done invalid_phone).
Proof.
  unfold send_airtime_validated. rewrite API_KEY_truthy.
  destruct (missing_fields b); [reflexivity |].
  now destruct (phoneRegex_test _).
Qed.

Lemma settled_as_admin_keeps_site b s now L :
  siteState (ledger_after (run now (send_airtime_settled true b s) L)) = siteState L.
Proof.
  destruct s as [r | e | st | st]; simpl; try reflexivity.
  destruct (response e); [reflexivity |]. now destruct (request e).
Qed.

(** C3.  The handler decides admission in the order of the policy: a
    claim whose phone number is the admin phone goes straight to
    validation and the provider without reading the shared state, and
    however its provider call settles [claimsToday] keeps its value;
    otherwise an offline site gives the 503 site-unavailable reply;
    otherwise [claimsToday >= claimLimit] gives the 429 limit reply;
    otherwise the claim is admitted and goes on to validation and the
    provider. *)
Theorem admission_order (env : Env) (b : ReqBody) (now : string) (L : Ledger) :
  let res := run now (send_airtime env b) L in
  match spec_evaluate (siteState L) (mobile_number b) (ADMIN_PHONE env) with
  | AdminBypass =>
      res = run now (send_airtime_validated env true b) L
      /\ touches_ledger (events res) = false
      /\ calls_provider (events res) = passes_validation b
      /\ (forall s now' L',
             count (ledger_after (run now' (send_airtime_settled true b s) L'))
             = count L')
  | SiteOffline =>
      res = mkResult L [ERead; EReply site_unavailable] (Done site_unavailable)
      /\ status site_unavailable = 503
  | QuotaExceeded =>
      res = mkResult L [ERead; EReply limit_reached] (Done limit_reached)
      /\ status limit_reached = 429
  | Granted =>
      res = emit ERead (run now (send_airtime_validated env false b) L)
      /\ calls_provider (events res) = passes_validation b
  end.
Proof.
  intros res. subst res. rewrite spec_evaluate_cases. unfold send_airtime.
  destruct (strict_eq_str (mobile_number b) (ADMIN_PHONE env)) eqn:Ha; simpl.
  - split; [reflexivity |].
    rewrite run_send_airtime_validated. unfold passes_validation.
    destruct (missing_fields b); simpl.
    + repeat split. intros s now' L'. unfold count.
      now rewrite settled_as_admin_keeps_site.
    + destruct (phoneRegex_test _); simpl; repeat split;
        intros s now' L'; unfold count; now rewrite settled_as_admin_keeps_site.
  - destruct (isSiteOnline (siteState L)); simpl; [| now split].
    destruct (claimsToday (siteState L) >=? claimLimit (siteState L)); [now split |].
    split; [reflexivity |].
    rewrite run_send_airtime_validated. unfold passes_validation.
    destruct (missing_fields b); simpl; [reflexivity |].
    now destruct (phoneRegex_test _).
Qed.

(** ** The order of validation, admission and the provider call *)

(** C4, the claim as worded fails: a request without [network] sent while
    the site is offline is answered from the shared state (503), not by
    validation. *)
Lemma validation_before_ledger_read_fails :
  ~ (forall env b now L,
        passes_validation b = false ->
        touches_ledger (events (run now (send_airtime env b) L)) = false
        /\ (outcome (run now (send_airtime env b) L) = Done missing_required
            \/ outcome (run now (send_airtime env b) L) = Done invalid_phone)).
Proof.
  intros H.
  specialize (H (mkEnv None None)
                (mkBody JUndefined JUndefined JUndefined (JStr "08012345678"))
                "2024-05-01T10:00:00.000Z"
                (mkLedger (mkSiteState false 52 0 None) [])
                eq_refl).
  destruct H as [H _]. discriminate H.
Qed.

(** C4, amended.  The first run of the handler never changes the shared
    state and reads it exactly when the phone number is not the admin
    phone.  A denial (site offline, limit reached) is replied before the
    input is validated and without a provider call; a request that is let
    through is then validated, and a validation error is replied without
    a provider call; only a request that passes both reaches the provider. *)
Theorem admission_then_validation_then_provider
    (env : Env) (b : ReqBody) (now : string) (L : Ledger) :
  let res := run now (send_airtime env b) L in
  ledger_after res = L
  /\ touches_ledger (events res)
     = negb (strict_eq_str (mobile_number b) (ADMIN_PHONE env))
  /\ match spec_evaluate (siteState L) (mobile_number b) (ADMIN_PHONE env) with
     | SiteOffline =>
         outcome res = Done site_unavailable /\ calls_provider (events res) = false
     | QuotaExceeded =>
         outcome res = Done limit_reached /\ calls_provider (events res) = false
     | AdminBypass | Granted =>
         if missing_fields b
         then outcome res = Done missing_required /\ calls_provider (events res) = false
         else if phoneRegex_test (ToString (mobile_number b))
         then outcome res
              = Suspended (apiPayload b) (apiHeaders env)
                  (send_airtime_settled
                     (strict_eq_str (mobile_number b) (ADMIN_PHONE env)) b)
              /\ calls_provider (events res) = true
         else outcome res = Done invalid_phone /\ calls_provider (events res) = false
     end.
Proof.
  intros res. subst res. rewrite spec_evaluate_cases. unfold send_airtime.
  destruct (strict_eq_str (mobile_number b) (ADMIN_PHONE env)) eqn:Ha; simpl.
  - rewrite run_send_airtime_validated.
    destruct (missing_fields b); simpl; [now repeat split |].
    destruct (phoneRegex_test _); simpl; now repeat split.
  - destruct (isSiteOnline (siteState L)); simpl; [| now repeat split].
    destruct (claimsToday (siteState L) >=? claimLimit (siteState L));
      [now repeat split |].
    rewrite run_send_airtime_validated.
    destruct (missing_fields b); simpl; [now repeat split |].
    destruct (phoneRegex_test _); simpl; now repeat split.
Qed.

(** ** Unknown networks *)





(** ** Classification of the provider outcome *)



(** Two instances: an empty 503 is relayed with the generic text; a 422
    with a detail is relayed with that detail. *)
Example empty_503_is_relayed :
  outcome (run "t" (send_airtime_settled false
                      (mkBody JUndefined JUndefined (JStr "MTN") (JStr "08012345678"))
                      (axios_post (Responds (mkHttp 503 (mkData JUndefined JUndefined)))))
             initial_ledger)
  = Done (mkResponse 503 (Some false)
            (JStr "An error occurred with the airtime provider.") NoExtra).
Proof. reflexivity. Qed.

Example detail_422_is_relayed :
  outcome (run "t" (send_airtime_settled false
                      (mkBody JUndefined JUndefined (JStr "MTN") (JStr "08012345678"))
                      (axios_post (Responds (mkHttp 422
                                     (mkData (JStr "Invalid number") JUndefined)))))
             initial_ledger)
  = Done (mkResponse 422 (Some false) (JStr "Invalid number") NoExtra).
Proof. reflexivity. Qed.

(** ** Failed provider calls and the shared state *)

Lemma axios_post_failed u :
  succeeded u = false ->
  (exists e, axios_post u = Rejected e) \/ (exists st, axios_post u = RejectedNull st).
Proof.
  destruct u as [r | m | m | st]; simpl; intros H; try rewrite H;
    [left | left | left | right]; eexists; reflexivity.
Qed.

Lemma rejected_leaves_ledger isAdminRequest b e now L :
  ledger_after (run now (send_airtime_settled isAdminRequest b (Rejected e)) L) = L
  /\ touches_ledger (events (run now (send_airtime_settled isAdminRequest b (Rejected e)) L))
     = false.
Proof.
  simpl. destruct (response e); [now split |]. destruct (request e); now split.
Qed.

Lemma first_run_keeps_ledger env b now L :
  ledger_after (run now (send_airtime env b) L) = L.
Proof.
  unfold send_airtime.
  destruct (strict_eq_str (mobile_number b) (ADMIN_PHONE env)); simpl.
  - rewrite run_send_airtime_validated.
    destruct (missing_fields b); [reflexivity |]. now destruct (phoneRegex_test _).
  - destruct (isSiteOnline (siteState L)); simpl; [| reflexivity].
    destruct (claimsToday (siteState L) >=? claimLimit (siteState L)); [reflexivity |].
    rewrite run_send_airtime_validated.
    destruct (missing_fields b); [reflexivity |]. now destruct (phoneRegex_test _).
Qed.

(** C7.  A claim whose provider call does not end in a 2xx response
    leaves the shared state as it was: the run up to the provider call
    changes nothing, and the run after the failed call neither reads nor
    updates the state, so the site state and the transaction history are
    the ones before. *)
Theorem provider_failure_leaves_ledger
    (env : Env) (isAdminRequest : bool) (b : ReqBody)
    (now now' : string) (L L' : Ledger) (u : Upstream) :
  succeeded u = false ->
  ledger_after (run now (send_airtime env b) L) = L
  /\ ledger_after (run now' (send_airtime_settled isAdminRequest b (axios_post u)) L') = L'
  /\ touches_ledger
       (events (run now' (send_airtime_settled isAdminRequest b (axios_post u)) L'))
     = false.
Proof.
  intros Hu. split.
  - apply first_run_keeps_ledger.
  - destruct (axios_post_failed u Hu) as [[e ->] | [st ->]];
      [apply rejected_leaves_ledger | now split].
Qed.

Lemma provider_failure_leaves_ledger_witness :
  let env := mkEnv None None in
  let b := mkBody JUndefined JUndefined (JStr "MTN") (JStr "08012345678") in
  let u := Responds (mkHttp 422 (mkData (JStr "Insufficient balance") JUndefined)) in
  let L := mkLedger (mkSiteState true 52 7 None)
             [mkTx "2024-05-01T09:00:00.000Z" (JStr "Glo") (JStr "08112345678") 100 "Success"] in
  succeeded u = false
  /\ ledger_after (run "2024-05-01T10:00:01.000Z"
                     (send_airtime_settled false b (axios_post u)) L) = L.
Proof.
  intros env b u L. split; [reflexivity |].
  apply (provider_failure_leaves_ledger env false b
           "2024-05-01T10:00:00.000Z" "2024-05-01T10:00:01.000Z" L L u eq_refl).
Defined.

(** ** The admin send *)




(** ** The PIN gate *)

(** C9.  On every admin route other than login, a request whose PIN is
    not the string [ADMIN_PIN] is answered 403 by a handler that is
    nothing but that reply: it performs no read and no update, and the
    shared state after the request is the state before it. *)
Theorem invalid_pin_is_forbidden
    (env : Env) (rt : Route) (b : ReqBody) (now : string) (L : Ledger) :
  pin_protected rt = true ->
  pin b <> JStr ADMIN_PIN ->
  app env (mkReq rt b) = Reply forbidden
  /\ run now (app env (mkReq rt b)) L = mkResult L [EReply forbidden] (Done forbidden)
  /\ status forbidden = 403.
Proof.
  intros Hrt Hp.
  assert (Hneq : strict_eq_str (pin b) ADMIN_PIN = false).
  { destruct (strict_eq_str (pin b) ADMIN_PIN) eqn:E; [| reflexivity].
    apply strict_eq_str_true in E. contradiction. }
  assert (Happ : app env (mkReq rt b) = Reply forbidden).
  { destruct rt; try discriminate Hrt; unfold app; simpl;
      unfold verifyAdminPin; now rewrite Hneq. }
  rewrite Happ. repeat split.
Qed.

Lemma invalid_pin_is_forbidden_witness :
  let b := mkBody (JStr "000000") (JNum 1000) JUndefined JUndefined in
  run "t" (app (mkEnv None None) (mkReq POST_admin_set_limit b)) initial_ledger
  = mkResult initial_ledger [EReply forbidden] (Done forbidden).
Proof.
  intros b.
  refine (proj1 (proj2 (invalid_pin_is_forbidden (mkEnv None None)
                          POST_admin_set_limit b "t" initial_ledger eq_refl _))).
  discriminate.
Defined.

(** ** The configuration check *)

(** C10.  [API_KEY] is the environment's value when that is a non-empty
    string and the hardcoded token otherwise, so it is never empty: the
    test [!API_KEY] is false for every environment, the handler is the
    one without the configuration branch, and no first run of
    [POST /send-airtime] replies with status 500 (nor ends without a
    reply or a provider call). *)
Theorem configuration_error_unreachable
    (env : Env) (isAdminRequest : bool) (b : ReqBody) (now : string) (L : Ledger) :
  negb (truthy (JStr (API_KEY env))) = false
  /\ send_airtime_validated env isAdminRequest b
     = (if missing_fields b then Reply missing_required
        else if negb (phoneRegex_test (ToString (mobile_number b))) then Reply invalid_phone
        else Await (apiPayload b) (apiHeaders env) (send_airtime_settled isAdminRequest b))
  /\ match outcome (run now (send_airtime env b) L) with
     | Done r => (status r =? 500) = false
     | Suspended _ _ _ => True
     | NoReply => False
     end.
Proof.
  split; [now rewrite API_KEY_truthy |]. split.
  - unfold send_airtime_validated. now rewrite API_KEY_truthy.
  - unfold send_airtime.
    destruct (strict_eq_str (mobile_number b) (ADMIN_PHONE env)); simpl.
    + rewrite run_send_airtime_validated.
      destruct (missing_fields b); [reflexivity |]. now destruct (phoneRegex_test _).
    + destruct (isSiteOnline (siteState L)); simpl; [| reflexivity].
      destruct (claimsToday (siteState L) >=? claimLimit (siteState L)); [reflexivity |].
      rewrite run_send_airtime_validated.
      destruct (missing_fields b); [reflexivity |]. now destruct (phoneRegex_test _).
Qed.

(** In the earlier server the key has no fallback: without [API_KEY] in
    the environment a valid request gets the configuration error. *)
Example earlier_server_configuration_error :
  outcome (run "t" (Backend.send_airtime (mkEnv None None)
                      (mkBody JUndefined JUndefined (JStr "MTN") (JStr "08012345678")))
             initial_ledger)
  = Done server_configuration_error.
Proof. reflexivity. Qed.

(** ** The shape of every run *)

(** The first run of a route ends in a reply or suspends on one of the
    two provider handlers. *)
Lemma app_outcome env req now L :
  (exists r, outcome (run now (app env req) L) = Done r)
  \/ (exists p hd k, outcome (run now (app env req) L) = Suspended p hd k
                     /\ awaits_provider k).
Proof.
  destruct req as [rt b]. unfold app; simpl.
  assert (Hpin : forall next,
    ((exists r, outcome (run now next L) = Done r)
     \/ (exists p hd k, outcome (run now next L) = Suspended p hd k /\ awaits_provider k)) ->
    (exists r, outcome (run now (verifyAdminPin b next) L) = Done r)
     \/ (exists p hd k, outcome (run now (verifyAdminPin b next) L) = Suspended p hd k
                        /\ awaits_provider k)).
  { intros next H. unfold verifyAdminPin.
    destruct (negb _); [left; eexists; reflexivity | exact H]. }
  destruct rt; try apply Hpin.
  - left; eexists; reflexivity.
  - unfold send_airtime.
    destruct (strict_eq_str (mobile_number b) (ADMIN_PHONE env)) eqn:Ha; simpl.
    + rewrite run_send_airtime_validated.
      destruct (missing_fields b); [left; eexists; reflexivity |].
      destruct (phoneRegex_test _); [| left; eexists; reflexivity].
      right. do 3 eexists. split; [reflexivity |]. left. eauto.
    + destruct (isSiteOnline (siteState L)); simpl; [| left; eexists; reflexivity].
      destruct (claimsToday (siteState L) >=? claimLimit (siteState L));
        [left; eexists; reflexivity |].
      rewrite run_send_airtime_validated.
      destruct (missing_fields b); [left; eexists; reflexivity |].
      destruct (phoneRegex_test _); [| left; eexists; reflexivity].
      right. do 3 eexists. split; [reflexivity |]. left. eauto.
  - unfold admin_login. destruct (strict_eq_str _ _); left; eexists; reflexivity.
  - left; eexists; reflexivity.
  - left; eexists; reflexivity.
  - left; eexists; reflexivity.
  - unfold admin_set_limit. destruct (parseInt10 _) as [n|]; [| left; eexists; reflexivity].
    destruct (n <? 0); left; eexists; reflexivity.
  - left; eexists; reflexivity.
  - unfold admin_send_airtime. destruct (missing_fields b); [left; eexists; reflexivity |].
    right. do 3 eexists. split; [reflexivity |]. right. eauto.
Qed.

(** A provider handler that runs on never awaits again. *)
Lemma settled_outcome k s now L p hd k' :
  awaits_provider k -> outcome (run now (k s) L) <> Suspended p hd k'.
Proof.
  intros [(a & b & ->) | (b & ->)]; destruct s as [r | e | st | st]; simpl;
    try discriminate.
  - destruct a; discriminate.
  - destruct (response e); [discriminate |]. destruct (request e); discriminate.
  - destruct a; discriminate.
Qed.

Lemma reachable_awaits env w :
  reachable env w -> Forall awaits_provider (inflight w).
Proof.
  induction 1 as [| w i _ IH]; [constructor |].
  destruct i as [now req | now n s]; simpl.
  - apply resume_inflight; [exact IH |]. intros p hd k Ho.
    destruct (app_outcome env req now (ledger w)) as [[r Hr] | (p' & hd' & k' & Hk & Haw)];
      rewrite Ho in *; [discriminate |]. now injection Hk as _ _ <-.
  - destruct (nth_error (inflight w) n) as [k|] eqn:E; [| exact IH].
    apply resume_inflight; [now apply Forall_remove_nth |]. intros p hd k' Ho.
    apply nth_error_In in E. rewrite Forall_forall in IH.
    now elim (settled_outcome k s now (ledger w) p hd k' (IH k E)).
Qed.

Lemma reachable_awaits_nth env w n k :
  reachable env w -> nth_error (inflight w) n = Some k -> awaits_provider k.
Proof.
  intros Hr E. pose proof (reachable_awaits env w Hr) as Hall.
  rewrite Forall_forall in Hall. apply Hall. eapply nth_error_In; eassumption.
Qed.

(** ** What a run can do to the shared state *)

(** The first run of a route never touches the history and changes the
    site state in at most one of four ways. *)
Lemma app_ledger_after env req now L :
  let L' := ledger_after (run now (app env req) L) in
  transactionHistory L' = transactionHistory L
  /\ (siteState L' = siteState L
      \/ L' = toggle_isSiteOnline L
      \/ (exists n, 0 <= n /\ L' = set_claimLimit n L)
      \/ L' = reset_claimsToday L
      \/ (exists t, L' = set_totalAmountToday t L)).
Proof.
  destruct req as [rt b]. unfold app; simpl.
  destruct rt; simpl; unfold verifyAdminPin;
    try match goal with
        | |- context [negb (strict_eq_str (pin b) ADMIN_PIN)] =>
            destruct (negb (strict_eq_str (pin b) ADMIN_PIN)); simpl;
            [now split; [| left] |]
        end.
  - now split; [| left].
  - rewrite first_run_keeps_ledger. now split; [| left].
  - unfold admin_login. destruct (strict_eq_str _ _); now split; [| left].
  - split; [reflexivity |]. right. right. right. right. eexists. reflexivity.
  - now split; [| left].
  - split; [reflexivity |]. right. now left.
  - unfold admin_set_limit. destruct (parseInt10 _) as [n|]; [| now split; [| left]].
    destruct (n <? 0) eqn:En; simpl; [now split; [| left] |].
    split; [reflexivity |]. right. right. left. exists n. split; [| reflexivity].
    apply Z.ltb_ge in En. exact En.
  - split; [reflexivity |]. right. right. right. now left.
  - unfold admin_send_airtime. destruct (missing_fields b); now split; [| left].
Qed.

(** A provider handler that runs on leaves the state alone or logs one
    record, counting it when the claim came from another phone than the
    admin phone. *)
Lemma settled_ledger_after k s now L :
  awaits_provider k ->
  let L' := ledger_after (run now (k s) L) in
  L' = L
  \/ (exists tx, tx_amount tx = 100 /\ tx_status tx = "Success"
                 /\ L' = unshift tx (increment_claimsToday L))
  \/ (exists tx, tx_amount tx = 100 /\ is_success_status (tx_status tx) = true
                 /\ L' = unshift tx L).
Proof.
  intros [(a & b & ->) | (b & ->)]; destruct s as [r | e | st | st]; simpl.
  - destruct a; simpl.
    + right. right.
      exists (mkTx now (network b) (mobile_number b) 100 "Success"). now repeat split.
    + right. left.
      exists (mkTx now (network b) (mobile_number b) 100 "Success"). now repeat split.
  - left. destruct (response e); [reflexivity |]. now destruct (request e).
  - destruct a; simpl.
    + right. right.
      exists (mkTx now (network b) (mobile_number b) 100 "Success"). now repeat split.
    + right. left.
      exists (mkTx now (network b) (mobile_number b) 100 "Success"). now repeat split.
  - now left.
  - right. right.
    exists (mkTx now (network b) (mobile_number b) 100 "Success (Admin)"). now repeat split.
  - now left.
  - right. right.
    exists (mkTx now (network b) (mobile_number b) 100 "Success (Admin)"). now repeat split.
  - now left.
Qed.

(** Induction over the reachable states for a property of the ledger. *)
Lemma reachable_ledger env (I : Ledger -> Prop) :
  I initial_ledger ->
  (forall req now L, I L -> I (ledger_after (run now (app env req) L))) ->
  (forall k s now L, awaits_provider k -> I L -> I (ledger_after (run now (k s) L))) ->
  forall w, reachable env w -> I (ledger w).
Proof.
  intros H0 Happ Hk w Hr. induction Hr as [| w i Hr IH]; [exact H0 |].
  destruct i as [now req | now n s]; simpl.
  - rewrite resume_ledger. now apply Happ.
  - destruct (nth_error (inflight w) n) as [k|] eqn:E; [| exact IH].
    rewrite resume_ledger. apply Hk; [| exact IH].
    eapply reachable_awaits_nth; eassumption.
Qed.

Lemma counted_cons tx h :
  counted (tx :: h)
  = counted h + (if (tx_status tx =? "Success")%string then 1 else 0).
Proof.
  unfold counted. cbn [filter].
  destruct (tx_status tx =? "Success")%string; cbn [List.length].
  - rewrite Nat2Z.inj_succ. lia.
  - lia.
Qed.

Lemma reachable_records_ok env w :
  reachable env w -> Forall record_ok (transactionHistory (ledger w)).
Proof.
  apply (reachable_ledger env (fun L => Forall record_ok (transactionHistory L))).
  - constructor.
  - intros req now L H.
    destruct (app_ledger_after env req now L) as [-> _]. exact H.
  - intros k s now L Hk H.
    destruct (settled_ledger_after k s now L Hk)
      as [-> | [(tx & Ha & Hs & ->) | (tx & Ha & Hs & ->)]]; simpl; auto.
    + constructor; [| exact H]. split; [exact Ha |]. now rewrite Hs.
    + constructor; [| exact H]. now split.
Qed.

(** X2.  In every state the server can reach, [claimLimit] and
    [claimsToday] are non-negative: a limit is only stored after the
    test [newLimit < 0], and the count only moves by [++] and by the
    reset to 0. *)
Theorem limit_and_count_never_negative (env : Env) (w : World) :
  reachable env w ->
  0 <= claimLimit (siteState (ledger w)) /\ 0 <= claimsToday (siteState (ledger w)).
Proof.
  apply (reachable_ledger env
           (fun L => 0 <= claimLimit (siteState L) /\ 0 <= claimsToday (siteState L))).
  - simpl. lia.
  - intros req now L [Hl Hc].
    destruct (app_ledger_after env req now L) as [_ H].
    destruct H as [-> | [-> | [(n & Hn & ->) | [-> | (t & ->)]]]]; simpl; lia.
  - intros k s now L Hk [Hl Hc].
    destruct (settled_ledger_after k s now L Hk)
      as [-> | [(tx & _ & _ & ->) | (tx & _ & _ & ->)]]; simpl; lia.
Qed.

Lemma limit_and_count_never_negative_witness :
  let env := mkEnv None None in
  let w := fst (step env initial_world
                  (Incoming "t" (mkReq POST_admin_set_limit
                                   (mkBody (JStr "226688") (JStr "7") JUndefined JUndefined)))) in
  0 <= claimLimit (siteState (ledger w)) /\ 0 <= claimsToday (siteState (ledger w)).
Proof.
  intros env w. apply (limit_and_count_never_negative env w).
  apply reach_step, reach_init.
Defined.

(** X3.  Every record of a reachable history has the amount 100 and the
    status [Success] or [Success (Admin)]: failed attempts are never
    logged. *)
Theorem history_records_are_successes (env : Env) (w : World) (tx : Tx) :
  reachable env w ->
  In tx (transactionHistory (ledger w)) ->
  tx_amount tx = 100
  /\ (tx_status tx = "Success" \/ tx_status tx = "Success (Admin)").
Proof.
  intros Hr Hin. pose proof (reachable_records_ok env w Hr) as Hok.
  rewrite Forall_forall in Hok. destruct (Hok tx Hin) as [Ha Hs].
  split; [exact Ha |]. unfold is_success_status in Hs.
  apply orb_true_iff in Hs. destruct Hs as [Hs | Hs]; apply String.eqb_eq in Hs; auto.
Qed.

Lemma history_records_are_successes_witness :
  let env := mkEnv None None in
  let b := mkBody (JStr "226688") JUndefined (JStr "MTN") (JStr "08012345678") in
  let ok := axios_post (Responds (mkHttp 200 (mkData JUndefined (JStr "sent")))) in
  let w := fst (step env
                  (fst (step env initial_world
                          (Incoming "2024-05-01T10:00:00.000Z"
                             (mkReq POST_admin_send_airtime b))))
                  (Settles "2024-05-01T10:00:01.000Z" 0 ok)) in
  let tx := mkTx "2024-05-01T10:00:01.000Z" (JStr "MTN") (JStr "08012345678") 100
              "Success (Admin)" in
  In tx (transactionHistory (ledger w))
  /\ tx_amount tx = 100
  /\ (tx_status tx = "Success" \/ tx_status tx = "Success (Admin)").
Proof.
  intros env b ok w tx.
  assert (Hin : In tx (transactionHistory (ledger w))) by (left; reflexivity).
  split; [exact Hin |].
  apply (history_records_are_successes env w tx); [| exact Hin].
  apply reach_step, reach_step, reach_init.
Defined.

(** X4.  In every reachable state [claimsToday] is at most the number of
    records with status [Success]: each increment comes with such a
    record, and nothing removes records. *)
Theorem count_bounded_by_success_records (env : Env) (w : World) :
  reachable env w ->
  claimsToday (siteState (ledger w)) <= counted (transactionHistory (ledger w)).
Proof.
  apply (reachable_ledger env
           (fun L => claimsToday (siteState L) <= counted (transactionHistory L))).
  - simpl. unfold counted. simpl. lia.
  - intros req now L H.
    destruct (app_ledger_after env req now L) as [Hh Hs]. rewrite Hh.
    destruct Hs as [-> | [-> | [(n & Hn & ->) | [-> | (t & ->)]]]]; simpl; try exact H.
    unfold counted. lia.
  - intros k s now L Hk H.
    destruct (settled_ledger_after k s now L Hk)
      as [-> | [(tx & Ha & Hs & ->) | (tx & Ha & Hs & ->)]]; [exact H | |].
    + cbn [unshift transactionHistory siteState]. rewrite counted_cons, Hs.
      simpl. lia.
    + cbn [unshift transactionHistory siteState]. rewrite counted_cons.
      destruct (tx_status tx =? "Success")%string; lia.
Qed.

Lemma count_bounded_by_success_records_witness :
  let env := mkEnv None None in
  let b := mkBody JUndefined JUndefined (JStr "MTN") (JStr "08012345678") in
  let ok := axios_post (Responds (mkHttp 200 (mkData JUndefined (JStr "sent")))) in
  let w := fst (step env
                  (fst (step env initial_world
                          (Incoming "2024-05-01T10:00:00.000Z" (mkReq POST_send_airtime b))))
                  (Settles "2024-05-01T10:00:01.000Z" 0 ok)) in
  claimsToday (siteState (ledger w)) <= counted (transactionHistory (ledger w)).
Proof.
  intros env b ok w. apply (count_bounded_by_success_records env w).
  apply reach_step, reach_step, reach_init.
Defined.

(** X5.  The history is append-only: a turn of the event loop from a
    reachable state leaves it as it is or puts one record in front of
    it; no route removes or rewrites a record. *)
Theorem history_is_append_only (env : Env) (w : World) (i : Input) :
  reachable env w ->
  let h := transactionHistory (ledger w) in
  let h' := transactionHistory (ledger (fst (step env w i))) in
  h' = h \/ exists tx, h' = tx :: h.
Proof.
  intros Hr h h'. subst h h'. destruct i as [now req | now n s]; simpl.
  - rewrite resume_ledger.
    destruct (app_ledger_after env req now (ledger w)) as [-> _]. now left.
  - destruct (nth_error (inflight w) n) as [k|] eqn:E; [| now left].
    rewrite resume_ledger.
    pose proof (reachable_awaits_nth env w n k Hr E) as Hk.
    destruct (settled_ledger_after k s now (ledger w) Hk)
      as [-> | [(tx & _ & _ & ->) | (tx & _ & _ & ->)]]; [now left | |];
      right; exists tx; reflexivity.
Qed.

Lemma history_is_append_only_witness :
  let env := mkEnv None None in
  let i := Incoming "t" (mkReq POST_admin_history
                           (mkBody (JStr "226688") JUndefined JUndefined JUndefined)) in
  transactionHistory (ledger (fst (step env initial_world i)))
  = transactionHistory (ledger initial_world)
  \/ exists tx, transactionHistory (ledger (fst (step env initial_world i)))
                = tx :: transactionHistory (ledger initial_world).
Proof.
  intros env i. apply (history_is_append_only env initial_world i). apply reach_init.
Defined.

(** X6.  Each setting has one writer: a turn of the event loop from a
    reachable state changes [isSiteOnline] only for a toggle-site request
    with the PIN, [claimLimit] only for a set-limit request with the PIN,
    and the stored [totalAmountToday] only for a state request with the
    PIN; claims and provider settlements touch none of the three. *)
Theorem each_setting_has_one_writer (env : Env) (w : World) (i : Input) :
  reachable env w ->
  let s := siteState (ledger w) in
  let s' := siteState (ledger (fst (step env w i))) in
  (isSiteOnline s' = isSiteOnline s \/ with_pin POST_admin_toggle_site i)
  /\ (claimLimit s' = claimLimit s \/ with_pin POST_admin_set_limit i)
  /\ (totalAmountToday s' = totalAmountToday s \/ with_pin POST_admin_state i).
Proof.
  intros Hr s s'. subst s s'. destruct i as [now req | now n k].
  - simpl. rewrite resume_ledger. destruct req as [rt b].
    destruct (strict_eq_str (pin b) ADMIN_PIN) eqn:Hp.
    + pose proof (proj1 (strict_eq_str_true _ _) Hp) as Hpin.
      assert (Hw : forall rt', with_pin rt' (Incoming now (mkReq rt' b))).
      { intros rt'. exists now, b. now split. }
      destruct rt; unfold app; simpl; unfold verifyAdminPin, admin_login;
        try rewrite Hp; simpl; try rewrite first_run_keeps_ledger; auto.
      * unfold admin_set_limit. destruct (parseInt10 _) as [m|]; [| auto].
        destruct (m <? 0); simpl; auto.
      * unfold admin_send_airtime. destruct (missing_fields b); simpl; auto.
    + destruct rt; unfold app; simpl; unfold verifyAdminPin, admin_login;
        try rewrite Hp; simpl; try rewrite first_run_keeps_ledger; auto.
  - simpl. destruct (nth_error (inflight w) n) as [k'|] eqn:E; simpl; [| auto].
    rewrite resume_ledger.
    pose proof (reachable_awaits_nth env w n k' Hr E) as Hk.
    destruct (settled_ledger_after k' k now (ledger w) Hk)
      as [-> | [(tx & _ & _ & ->) | (tx & _ & _ & ->)]]; simpl; auto.
Qed.

Lemma each_setting_has_one_writer_witness :
  let env := mkEnv None None in
  let i := Incoming "t" (mkReq POST_admin_reset_count
                           (mkBody (JStr "226688") JUndefined JUndefined JUndefined)) in
  let s := siteState (ledger initial_world) in
  let s' := siteState (ledger (fst (step env initial_world i))) in
  (isSiteOnline s' = isSiteOnline s \/ with_pin POST_admin_toggle_site i)
  /\ (claimLimit s' = claimLimit s \/ with_pin POST_admin_set_limit i)
  /\ (totalAmountToday s' = totalAmountToday s \/ with_pin POST_admin_state i).
Proof.
  intros env i. apply (each_setting_has_one_writer env initial_world i). apply reach_init.
Defined.

(** ** The total of the day *)

Lemma sum_amounts_acc (l : list Tx) : forall acc,
  fold_left (fun sum tx => sum + tx_amount tx) l acc
  = acc + fold_left (fun sum tx => sum + tx_amount tx) l 0.
Proof.
  induction l as [| tx l IH]; intros acc; simpl; [lia |].
  rewrite IH, (IH (tx_amount tx)). lia.
Qed.

Lemma sum_amounts_100 (l : list Tx) :
  Forall (fun tx => tx_amount tx = 100) l ->
  fold_left (fun sum tx => sum + tx_amount tx) l 0 = 100 * Z.of_nat (List.length l).
Proof.
  induction 1 as [| tx l Hx _ IH]; [reflexivity |].
  cbn [fold_left List.length]. rewrite sum_amounts_acc, IH, Hx, Nat2Z.inj_succ. lia.
Qed.

Lemma filter_successes today h :
  Forall record_ok h ->
  filter (fun tx => startsWith (tx_date tx) today && is_success_status (tx_status tx)) h
  = of_day today h.
Proof.
  induction 1 as [| tx l [_ Hs] _ IH]; [reflexivity |].
  unfold of_day in *. cbn [filter]. rewrite Hs, andb_true_r, IH. reflexivity.
Qed.


(** X7.  On a reachable state, [/admin/state] with the PIN computes 100
    times the number of records whose date starts with today's date,
    stores that number in [siteState], replies with the state carrying
    it, and changes nothing else. *)
Theorem state_reports_hundred_per_record_of_today
    (env : Env) (w : World) (b : ReqBody) (now : string) :
  reachable env w ->
  pin b = JStr ADMIN_PIN ->
  let L := ledger w in
  let total := 100 * Z.of_nat (List.length (of_day (before_T now) (transactionHistory L))) in
  let res := run now (app env (mkReq POST_admin_state b)) L in
  ledger_after res = set_totalAmountToday total L
  /\ outcome res
     = Done (mkResponse 200 (Some true) JUndefined
               (State (mkSiteState (isSiteOnline (siteState L)) (claimLimit (siteState L))
                         (claimsToday (siteState L)) (Some total)))).
Proof.
  intros Hr Hp L total res. subst res. unfold app; simpl. unfold verifyAdminPin.
  rewrite Hp. simpl.
  pose proof (reachable_records_ok env w Hr) as Hok. fold L in Hok.
  rewrite (filter_successes _ _ Hok).
  rewrite sum_amounts_100.
  - split; reflexivity.
  - unfold of_day. apply Forall_forall. intros tx Hin. apply filter_In in Hin.
    destruct Hin as [Hin _]. rewrite Forall_forall in Hok. now apply Hok.
Qed.

Lemma state_reports_hundred_per_record_of_today_witness :
  let env := mkEnv None None in
  let claim := mkBody JUndefined JUndefined (JStr "MTN") (JStr "08012345678") in
  let admin := mkBody (JStr "226688") JUndefined JUndefined JUndefined in
  let ok := axios_post (Responds (mkHttp 200 (mkData JUndefined (JStr "sent")))) in
  let w := fst (step env
                  (fst (step env initial_world
                          (Incoming "2024-05-01T10:00:00.000Z"
                             (mkReq POST_send_airtime claim))))
                  (Settles "2024-05-01T10:00:01.000Z" 0 ok)) in
  totalAmountToday
    (siteState (ledger_after (run "2024-05-01T18:30:00.000Z"
                                (app env (mkReq POST_admin_state admin)) (ledger w))))
  = Some 100.
Proof.
  intros env claim admin ok w.
  rewrite (proj1 (state_reports_hundred_per_record_of_today env w admin
                    "2024-05-01T18:30:00.000Z"
                    (reach_step env _ _ (reach_step env _ _ (reach_init env)))
                    eq_refl)).
  reflexivity.
Defined.





(** ** The limit and [parseInt] *)

Lemma leading_digits_step c r acc :
  is_digit c = true ->
  leading_digits (String c r) acc = leading_digits r (10 * acc + digit_val c).
Proof. intros H. simpl. now rewrite H. Qed.

Ltac eval_digit :=
  match goal with
  | |- context [digit_val ?c] =>
      let v := eval vm_compute in (digit_val c) in change (digit_val c) with v
  end.

Lemma leading_digits_uint d : forall p,
  leading_digits (NilEmpty.string_of_uint d) (Zpos p) = Zpos (Pos.of_uint_acc d p).
Proof.
  induction d; intros p; cbn [NilEmpty.string_of_uint Pos.of_uint_acc];
    [reflexivity | ..];
    rewrite leading_digits_step by reflexivity; rewrite <- IHd; f_equal;
    eval_digit; lia.
Qed.

Lemma leading_digits_uint_0 d :
  leading_digits (NilEmpty.string_of_uint d) 0 = Z.of_N (Pos.of_uint d).
Proof.
  induction d; cbn [NilEmpty.string_of_uint Pos.of_uint]; [reflexivity | ..];
    rewrite leading_digits_step by reflexivity; eval_digit;
    [exact IHd | ..]; cbn [Z.of_N]; rewrite <- leading_digits_uint; reflexivity.
Qed.

Lemma leading_digits_nondigit t acc :
  starts_with_digit t = false -> leading_digits t acc = acc.
Proof. destruct t as [| c r]; simpl; [reflexivity |]. now intros ->. Qed.

Lemma leading_digits_app d t : forall acc,
  starts_with_digit t = false ->
  leading_digits (NilEmpty.string_of_uint d ++ t) acc
  = leading_digits (NilEmpty.string_of_uint d) acc.
Proof.
  intros acc Ht. revert acc.
  induction d; intros acc; cbn [NilEmpty.string_of_uint String.append];
    [| rewrite !leading_digits_step by reflexivity; apply IHd ..].
  destruct t as [| c r]; [reflexivity |]. simpl in *. now rewrite Ht.
Qed.

Lemma uint_starts_with_digit d :
  d <> Decimal.Nil -> starts_with_digit (NilEmpty.string_of_uint d) = true.
Proof. destruct d; intros H; [congruence | reflexivity ..]. Qed.

Lemma skip_spaces_digit s :
  starts_with_digit s = true -> skip_spaces s = s.
Proof.
  destruct s as [| c r]; simpl; [reflexivity |]. intros H.
  destruct c as [[|] [|] [|] [|] [|] [|] [|] [|]]; simpl in *; try discriminate; reflexivity.
Qed.

Lemma string_of_pos p :
  NilZero.string_of_uint (Pos.to_uint p) = NilEmpty.string_of_uint (Pos.to_uint p).
Proof.
  unfold NilZero.string_of_uint.
  pose proof (DecimalPos.Unsigned.to_uint_nonnil p). destruct (Pos.to_uint p); congruence.
Qed.

(** [parseInt] reads back the decimal form of a non-negative integer,
    whatever follows it when that does not start with a digit. *)
Lemma parseInt10_prefix n t :
  0 <= n ->
  starts_with_digit t = false ->
  parseInt10 (JStr (ToString (JNum n) ++ t)) = Some n.
Proof.
  intros Hn Ht. destruct n as [| p | p]; [| | lia].
  - change (parseInt10 (JStr (String "0" t)) = Some 0).
    unfold parseInt10. simpl. now rewrite leading_digits_nondigit.
  - unfold parseInt10, ToString. simpl Z.to_int.
    unfold NilZero.string_of_int. rewrite string_of_pos.
    pose proof (uint_starts_with_digit _ (DecimalPos.Unsigned.to_uint_nonnil p)) as Hd.
    destruct (NilEmpty.string_of_uint (Pos.to_uint p)) as [| c r] eqn:E; [discriminate |].
    assert (Hd' : starts_with_digit (String c r ++ t) = true) by exact Hd.
    rewrite (skip_spaces_digit _ Hd').
    assert (Hsign : match (String c r ++ t)%string with
                    | String "-" r0 => (true, r0)
                    | String "+" r0 => (false, r0)
                    | _ => (false, (String c r ++ t)%string)
                    end = (false, (String c r ++ t)%string)).
    { simpl in Hd. cbn [String.append].
      destruct c as [[|] [|] [|] [|] [|] [|] [|] [|]]; try reflexivity; discriminate. }
    rewrite Hsign, Hd'. rewrite <- E.
    rewrite leading_digits_app by exact Ht.
    rewrite leading_digits_uint_0, DecimalPos.Unsigned.of_to. reflexivity.
Qed.

(** [parseInt] of an integer, and of its decimal form, is that integer. *)
Lemma parseInt10_number n : parseInt10 (JNum n) = Some n.
Proof.
  destruct n as [| p | p]; [reflexivity | |].
  - unfold parseInt10, ToString. simpl Z.to_int. unfold NilZero.string_of_int.
    rewrite string_of_pos.
    pose proof (uint_starts_with_digit _ (DecimalPos.Unsigned.to_uint_nonnil p)) as Hd.
    rewrite (skip_spaces_digit _ Hd).
    destruct (NilEmpty.string_of_uint (Pos.to_uint p)) as [| c r] eqn:E; [discriminate |].
    assert (Hsign : match String c r with
                    | String "-" r0 => (true, r0)
                    | String "+" r0 => (false, r0)
                    | _ => (false, String c r)
                    end = (false, String c r)).
    { simpl in Hd.
      destruct c as [[|] [|] [|] [|] [|] [|] [|] [|]]; try reflexivity; discriminate. }
    rewrite Hsign, Hd. rewrite <- E.
    rewrite leading_digits_uint_0, DecimalPos.Unsigned.of_to. reflexivity.
  - unfold parseInt10, ToString. simpl Z.to_int. unfold NilZero.string_of_int.
    rewrite string_of_pos.
    pose proof (uint_starts_with_digit _ (DecimalPos.Unsigned.to_uint_nonnil p)) as Hd.
    cbn [skip_spaces]. change (is_space "-") with false. cbv iota.
    rewrite Hd. rewrite leading_digits_uint_0, DecimalPos.Unsigned.of_to. reflexivity.
Qed.

Lemma run_set_limit env b now L n :
  pin b = JStr ADMIN_PIN ->
  parseInt10 (limit b) = Some n ->
  run now (app env (mkReq POST_admin_set_limit b)) L
  = if n <? 0
    then mkResult L [EReply invalid_limit] (Done invalid_limit)
    else mkResult (set_claimLimit n L)
           [EUpdate; ERead; EReply (limit_updated n (siteState (set_claimLimit n L)))]
           (Done (limit_updated n (siteState (set_claimLimit n L)))).
Proof.
  intros Hp Hn. unfold app; simpl. unfold verifyAdminPin. rewrite Hp. simpl.
  unfold admin_set_limit. rewrite Hn. now destruct (n <? 0).
Qed.

(** X9.  With the PIN, a limit sent as an integer [n] that JavaScript
    holds exactly (between -2^53 and 2^53), or as the string of its
    decimal digits, is stored exactly when [n] is not negative
    ([claimLimit] becomes [n], nothing else changes, the reply quotes
    [n]); a negative [n] gets the 400 reply and changes nothing. *)
Theorem set_limit_stores_the_number
    (env : Env) (b : ReqBody) (now : string) (L : Ledger) (n : Z) :
  pin b = JStr ADMIN_PIN ->
  - 2 ^ 53 <= n <= 2 ^ 53 ->
  limit b = JNum n \/ limit b = JStr (ToString (JNum n)) ->
  let res := run now (app env (mkReq POST_admin_set_limit b)) L in
  if n <? 0
  then ledger_after res = L /\ outcome res = Done invalid_limit
  else ledger_after res = set_claimLimit n L
       /\ outcome res = Done (limit_updated n (siteState (set_claimLimit n L))).
Proof.
  intros Hp _ Hl res. subst res.
  assert (Hn : parseInt10 (limit b) = Some n).
  { destruct Hl as [-> | ->]; [apply parseInt10_number |].
    exact (parseInt10_number n). }
  rewrite (run_set_limit env b now L n Hp Hn). now destruct (n <? 0).
Qed.

Lemma set_limit_stores_the_number_witness :
  let env := mkEnv None None in
  let b := mkBody (JStr "226688") (JNum 1000) JUndefined JUndefined in
  claimLimit (siteState (ledger_after
                (run "t" (app env (mkReq POST_admin_set_limit b)) initial_ledger)))
  = 1000.
Proof.
  intros env b.
  pose proof (set_limit_stores_the_number env b "t" initial_ledger 1000
                eq_refl ltac:(lia) (or_introl eq_refl)) as H.
  cbv zeta in H. change (1000 <? 0) with false in H. cbv iota in H.
  rewrite (proj1 H). reflexivity.
Defined.

(** X10.  [parseInt] stops at the first character that is not a digit:
    with the PIN, a limit sent as a string that starts with the decimal
    digits of [n], for [n] from 0 to 2^53, and goes on with other text
    (["12 per day"], ["3.7"]) sets [claimLimit] to [n]. *)
Theorem set_limit_ignores_trailing_text
    (env : Env) (b : ReqBody) (now : string) (L : Ledger) (n : Z) (t : string) :
  pin b = JStr ADMIN_PIN ->
  0 <= n <= 2 ^ 53 ->
  starts_with_digit t = false ->
  limit b = JStr (ToString (JNum n) ++ t) ->
  let res := run now (app env (mkReq POST_admin_set_limit b)) L in
  ledger_after res = set_claimLimit n L
  /\ outcome res = Done (limit_updated n (siteState (set_claimLimit n L))).
Proof.
  intros Hp [H0 _] Ht Hl res. subst res.
  assert (Hn : parseInt10 (limit b) = Some n).
  { rewrite Hl. now apply parseInt10_prefix. }
  rewrite (run_set_limit env b now L _ Hp Hn).
  rewrite (proj2 (Z.ltb_ge n 0) H0). now split.
Qed.

Lemma set_limit_ignores_trailing_text_witness :
  let env := mkEnv None None in
  let b := mkBody (JStr "226688") (JStr "12 per day") JUndefined JUndefined in
  claimLimit (siteState (ledger_after
                (run "t" (app env (mkReq POST_admin_set_limit b)) initial_ledger)))
  = 12.
Proof.
  intros env b.
  rewrite (proj1 (set_limit_ignores_trailing_text env b "t" initial_ledger 12 " per day"
                    eq_refl ltac:(lia) eq_refl eq_refl)).
  reflexivity.
Defined.

(** ** The switch and the reset *)

Lemma toggle_twice L : toggle_isSiteOnline (toggle_isSiteOnline L) = L.
Proof.
  destruct L as [[o l c t] h]. unfold toggle_isSiteOnline, set_site. simpl.
  now rewrite negb_involutive.
Qed.

(** X11.  With the PIN, [/admin/toggle-site] flips [isSiteOnline],
    replies with the new value and the new state, and a second toggle
    gives back exactly the state before the first. *)
Theorem toggle_flips_and_two_toggles_restore
    (env : Env) (b : ReqBody) (now now' : string) (L : Ledger) :
  pin b = JStr ADMIN_PIN ->
  let req := mkReq POST_admin_toggle_site b in
  let res := run now (app env req) L in
  let res' := run now' (app env req) (ledger_after res) in
  isSiteOnline (siteState (ledger_after res)) = negb (isSiteOnline (siteState L))
  /\ outcome res = Done (site_is_now (siteState (ledger_after res)))
  /\ ledger_after res' = L.
Proof.
  intros Hp req res res'. subst req res res'. unfold app; simpl.
  unfold verifyAdminPin. rewrite Hp. simpl.
  repeat split. apply toggle_twice.
Qed.

Lemma toggle_flips_and_two_toggles_restore_witness :
  let env := mkEnv None None in
  let b := mkBody (JStr "226688") JUndefined JUndefined JUndefined in
  outcome (run "t" (app env (mkReq POST_admin_toggle_site b)) initial_ledger)
  = Done (mkResponse 200 (Some true) (JStr "Site is now OFF.")
            (State (mkSiteState false 52 0 None))).
Proof.
  intros env b.
  rewrite (proj1 (proj2 (toggle_flips_and_two_toggles_restore env b "t" "t"
                           initial_ledger eq_refl))).
  reflexivity.
Defined.

(** X12.  With the PIN, [/admin/reset-count] sets [claimsToday] to 0 and
    nothing else; the next well-formed claim from another phone than the
    admin phone is then forwarded to the provider exactly when the site
    is online and the limit is positive, is refused with 429 when the
    limit is 0 and with 503 when the site is offline. *)
Theorem reset_reopens_the_quota
    (env : Env) (b c : ReqBody) (now now' : string) (L : Ledger) :
  pin b = JStr ADMIN_PIN ->
  strict_eq_str (mobile_number c) (ADMIN_PHONE env) = false ->
  well_formed c ->
  let L1 := ledger_after (run now (app env (mkReq POST_admin_reset_count b)) L) in
  L1 = reset_claimsToday L
  /\ outcome (run now' (send_airtime env c) L1)
     = if isSiteOnline (siteState L)
       then if 0 <? claimLimit (siteState L)
            then Suspended (apiPayload c) (apiHeaders env) (send_airtime_settled false c)
            else Done limit_reached
       else Done site_unavailable.
Proof.
  intros Hp Ha Hw L1.
  assert (E : L1 = reset_claimsToday L).
  { subst L1. unfold app; simpl. unfold verifyAdminPin. now rewrite Hp. }
  split; [exact E |]. rewrite E. unfold send_airtime. rewrite Ha. simpl.
  destruct (isSiteOnline (siteState L)); simpl; [| reflexivity].
  rewrite Z.geb_leb, Z.ltb_antisym.
  destruct (claimLimit (siteState L) <=? 0); simpl; [reflexivity |].
  now rewrite (send_airtime_validated_ok env false c Hw).
Qed.

Lemma reset_reopens_the_quota_witness :
  let env := mkEnv None None in
  let b := mkBody (JStr "226688") JUndefined JUndefined JUndefined in
  let c := mkBody JUndefined JUndefined (JStr "Airtel") (JStr "09012345678") in
  let full := mkLedger (mkSiteState true 5 5 None) [] in
  outcome (run "t" (send_airtime env c) full) = Done limit_reached
  /\ outcome (run "t2" (send_airtime env c)
                (ledger_after (run "t1" (app env (mkReq POST_admin_reset_count b)) full)))
     = Suspended (apiPayload c) (apiHeaders env) (send_airtime_settled false c).
Proof.
  intros env b c full. split; [reflexivity |].
  exact (proj2 (reset_reopens_the_quota env b c "t1" "t2" full
                  eq_refl eq_refl (conj eq_refl eq_refl))).
Defined.

(** ** The phone pattern *)

Lemma phoneRegex_test_sound s :
  phoneRegex_test s = true ->
  exists p rest,
    s = (p ++ rest)%string /\ In p phone_prefixes
    /\ String.length rest = 8%nat
    /\ forallb is_digit (list_ascii_of_string rest) = true.
Proof.
  destruct s as [| c0 [| a [| b rest]]]; try discriminate.
  - destruct c0 as [[|] [|] [|] [|] [|] [|] [|] [|]]; discriminate.
  - destruct c0 as [[|] [|] [|] [|] [|] [|] [|] [|]]; discriminate.
  - destruct c0 as [[|] [|] [|] [|] [|] [|] [|] [|]]; try discriminate.
    unfold phoneRegex_test. intros H.
    apply andb_true_iff in H. destruct H as [H Hd].
    apply andb_true_iff in H. destruct H as [Hp Hl].
    apply Nat.eqb_eq in Hl.
    exists (String "0" (String a (String b EmptyString))), rest.
    split; [reflexivity |]. split; [| now split].
    cbn [existsb] in Hp. unfold phone_prefixes.
    repeat (apply orb_true_iff in Hp; destruct Hp as [Hp | Hp]);
      try discriminate Hp; apply String.eqb_eq in Hp; rewrite Hp; simpl; tauto.
Qed.

Lemma phoneRegex_test_complete p rest :
  In p phone_prefixes ->
  String.length rest = 8%nat ->
  forallb is_digit (list_ascii_of_string rest) = true ->
  phoneRegex_test (p ++ rest) = true.
Proof.
  intros Hp Hl Hd. unfold phone_prefixes in Hp. simpl in Hp.
  destruct Hp as [<- | [<- | [<- | [<- | [<- | []]]]]];
    cbn [String.append phoneRegex_test]; rewrite Hl, Hd; reflexivity.
Qed.

(** X13.  The phone test accepts exactly the strings made of one of the
    prefixes 070, 080, 081, 090, 091 followed by eight decimal digits,
    with nothing before or after. *)
Theorem phoneRegex_test_characterised (s : string) :
  phoneRegex_test s = true <->
  exists p rest,
    s = (p ++ rest)%string /\ In p phone_prefixes
    /\ String.length rest = 8%nat
    /\ forallb is_digit (list_ascii_of_string rest) = true.
Proof.
  split; [apply phoneRegex_test_sound |].
  intros (p & rest & -> & Hp & Hl & Hd). now apply phoneRegex_test_complete.
Qed.

Lemma phoneRegex_test_characterised_witness :
  phoneRegex_test "09112345678" = true.
Proof.
  apply (proj2 (phoneRegex_test_characterised "09112345678")).
  exists "091", "12345678". split; [reflexivity |].
  split; [simpl; tauto |]. split; reflexivity.
Defined.

Lemma nzhead_not_D0 d d' : Decimal.nzhead d <> Decimal.D0 d'.
Proof. induction d; simpl; try discriminate. exact IHd. Qed.

(** The decimal form of a positive integer has no leading zero. *)
Lemma to_uint_head p d : Pos.to_uint p <> Decimal.D0 d.
Proof.
  pose proof (DecimalPos.Unsigned.to_of (Pos.to_uint p)) as H.
  rewrite DecimalPos.Unsigned.of_to in H. simpl in H.
  rewrite H. unfold Decimal.unorm.
  pose proof (nzhead_not_D0 (Pos.to_uint p)) as Hnz.
  destruct (Decimal.nzhead (Pos.to_uint p)) eqn:E; try discriminate.
  - intros Heq. injection Heq as <-.
    apply (DecimalPos.Unsigned.to_uint_nonzero p). rewrite H. unfold Decimal.unorm.
    now rewrite E.
  - apply Hnz.
Qed.

Lemma number_not_phone n : phoneRegex_test (ToString (JNum n)) = false.
Proof.
  destruct n as [| p | p]; [reflexivity | | reflexivity].
  unfold ToString. simpl Z.to_int. unfold NilZero.string_of_int.
  rewrite string_of_pos.
  pose proof (to_uint_head p) as Hh.
  destruct (Pos.to_uint p); try reflexivity. now elim (Hh u).
Qed.

Lemma prefix_append p rest : String.prefix p (p ++ rest) = true.
Proof.
  induction p as [| c p IH]; simpl; [now destruct rest |].
  destruct (ascii_dec c c); [exact IH | congruence].
Qed.

(** X14.  A body that passes the validation of [POST /send-airtime] has a
    truthy [network] and a [mobile_number] that is text (a string, or an
    array or object converting to one), never a number, boolean or null:
    eleven characters, all decimal digits, starting with one of the five
    prefixes. *)
Theorem validated_phone_is_eleven_digit_text (b : ReqBody) :
  passes_validation b = true ->
  truthy (network b) = true
  /\ exists s,
       (mobile_number b = JStr s \/ mobile_number b = JObj s)
       /\ String.length s = 11%nat
       /\ forallb is_digit (list_ascii_of_string s) = true
       /\ exists p, In p phone_prefixes /\ String.prefix p s = true.
Proof.
  unfold passes_validation, missing_fields. intros H.
  apply andb_true_iff in H. destruct H as [Hm Hp].
  apply negb_true_iff, orb_false_iff in Hm. destruct Hm as [Hn _].
  apply negb_false_iff in Hn. split; [exact Hn |].
  exists (ToString (mobile_number b)). split.
  - destruct (mobile_number b) as [| | [|] | n | s | s]; try discriminate Hp; auto.
    rewrite number_not_phone in Hp. discriminate.
  - destruct (phoneRegex_test_sound _ Hp) as (p & rest & -> & Hin & Hl & Hd).
    split; [| split].
    + unfold phone_prefixes in Hin. simpl in Hin.
      destruct Hin as [<- | [<- | [<- | [<- | [<- | []]]]]]; simpl; now rewrite Hl.
    + unfold phone_prefixes in Hin. simpl in Hin.
      destruct Hin as [<- | [<- | [<- | [<- | [<- | []]]]]]; exact Hd.
    + exists p. split; [exact Hin | apply prefix_append].
Qed.

Lemma validated_phone_is_eleven_digit_text_witness :
  let b := mkBody JUndefined JUndefined (JStr "Glo") (JObj "08112345678") in
  truthy (network b) = true
  /\ exists s,
       (mobile_number b = JStr s \/ mobile_number b = JObj s)
       /\ String.length s = 11%nat
       /\ forallb is_digit (list_ascii_of_string s) = true
       /\ exists p, In p phone_prefixes /\ String.prefix p s = true.
Proof.
  intros b. apply (validated_phone_is_eleven_digit_text b). reflexivity.
Defined.

(** ** What is sent to the provider *)

(** The lookup finds a number only under the four names of the table. *)
Lemma networkIds_get_code key n :
  networkIds_get key = NetCode n <-> In (ToString key, n) networkIds.
Proof.
  unfold networkIds_get, networkIds. cbn [find fst snd].
  split.
  - repeat match goal with
           | |- context [(?a =? ?b)%string] =>
               destruct (String.eqb_spec a b) as [<- | ?]
           end; intros H; simpl in H;
      first [ discriminate H
            | injection H as <-; simpl; tauto
            | destruct (ToString key =? "__proto__")%string; discriminate H ].
  - simpl. intros [[= <- <-] | [[= <- <-] | [[= <- <-] | [[= <- <-] | []]]]]; reflexivity.
Qed.

Lemma networkIds_get_proto key :
  networkIds_get key = NetEmptyObject <-> ToString key = "__proto__".
Proof.
  unfold networkIds_get, networkIds. cbn [find fst snd].
  split.
  - repeat match goal with
           | |- context [(?a =? ?b)%string] =>
               destruct (String.eqb_spec a b) as [? | ?]
           end; intros H; simpl in H; try discriminate H; assumption.
  - intros ->. reflexivity.
Qed.

(** X15.  Whenever a request to any route leads to a provider call, the
    call carries the request's [mobile_number], the amount 100, the type
    [VTU], the ported flag and the header [Token <API_KEY>]; [network]
    and [mobile_number] are truthy; and the posted network is the table's
    number (between 1 and 4) for one of the four names, the empty object
    for the name [__proto__], and is left out for every other name. *)
Theorem provider_calls_carry_fixed_payload
    (env : Env) (req : Req) (now : string) (L : Ledger)
    (p : ApiPayload) (hd : ApiHeaders) (k : Settled -> Handler) :
  outcome (run now (app env req) L) = Suspended p hd k ->
  p = mkPayload (networkIds_get (network (body req))) (mobile_number (body req)) 100 "VTU" true
  /\ hd = mkHeaders "application/json" ("Token " ++ API_KEY env)
  /\ truthy (network (body req)) = true
  /\ truthy (mobile_number (body req)) = true
  /\ match p_network p with
     | NetCode n => 1 <= n <= 4 /\ In (ToString (network (body req)), n) networkIds
     | NetEmptyObject => ToString (network (body req)) = "__proto__"
     | NetOmitted =>
         ~ In (ToString (network (body req))) (map fst networkIds)
         /\ ToString (network (body req)) <> "__proto__"
     end.
Proof.
  intros Ho.
  assert (H : p = apiPayload (body req) /\ hd = apiHeaders env
              /\ missing_fields (body req) = false).
  { destruct req as [rt b]. unfold app in Ho; simpl in Ho.
    destruct rt; simpl in Ho; unfold verifyAdminPin in Ho;
      try match type of Ho with
          | context [negb (strict_eq_str (pin b) ADMIN_PIN)] =>
              destruct (negb (strict_eq_str (pin b) ADMIN_PIN)); simpl in Ho
          end;
      try discriminate Ho.
    - unfold send_airtime in Ho.
      destruct (strict_eq_str (mobile_number b) (ADMIN_PHONE env)); simpl in Ho.
      + rewrite run_send_airtime_validated in Ho.
        destruct (missing_fields b) eqn:Hm; [discriminate |].
        destruct (phoneRegex_test _); [| discriminate].
        injection Ho as <- <- _; now repeat split.
      + destruct (isSiteOnline (siteState L)); simpl in Ho; [| discriminate].
        destruct (claimsToday (siteState L) >=? claimLimit (siteState L));
          [discriminate |].
        rewrite run_send_airtime_validated in Ho.
        destruct (missing_fields b) eqn:Hm; [discriminate |].
        destruct (phoneRegex_test _); [| discriminate].
        injection Ho as <- <- _; now repeat split.
    - unfold admin_login in Ho. destruct (strict_eq_str _ _); discriminate.
    - unfold admin_set_limit in Ho. destruct (parseInt10 _) as [n|]; [| discriminate].
      destruct (n <? 0); discriminate.
    - unfold admin_send_airtime in Ho.
      destruct (missing_fields b) eqn:Hm; [discriminate |].
      injection Ho as <- <- _; now repeat split. }
  destruct H as (-> & -> & Hm). split; [reflexivity |]. split; [reflexivity |].
  unfold missing_fields in Hm. apply orb_false_iff in Hm. destruct Hm as [Hn Hph].
  apply negb_false_iff in Hn. apply negb_false_iff in Hph.
  split; [exact Hn |]. split; [exact Hph |].
  cbn [apiPayload p_network].
  destruct (networkIds_get (network (body req))) as [n | |] eqn:E.
  - apply networkIds_get_code in E. split; [| exact E].
    unfold networkIds in E. simpl in E.
    destruct E as [[= _ <-] | [[= _ <-] | [[= _ <-] | [[= _ <-] | []]]]]; lia.
  - split.
    + intros Hin. apply in_map_iff in Hin. destruct Hin as ([nm n] & Hfst & Hin).
      simpl in Hfst. subst nm. apply networkIds_get_code in Hin. congruence.
    + intros Hproto. apply networkIds_get_proto in Hproto. congruence.
  - now apply networkIds_get_proto.
Qed.

Lemma provider_calls_carry_fixed_payload_witness :
  let env := mkEnv (Some "secret") None in
  let req := mkReq POST_send_airtime
               (mkBody JUndefined JUndefined (JStr "9mobile") (JStr "09012345678")) in
  p_network (apiPayload (body req)) = NetCode 3
  /\ apiHeaders env = mkHeaders "application/json" "Token secret".
Proof.
  intros env req.
  destruct (provider_calls_carry_fixed_payload env req "t" initial_ledger
              (apiPayload (body req)) (apiHeaders env)
              (send_airtime_settled false (body req)) eq_refl)
    as (Hp & Hh & _).
  split; [now rewrite Hp | exact Hh].
Defined.

(** ** The admin phone *)

Lemma ADMIN_PHONE_truthy env : truthy (JStr (ADMIN_PHONE env)) = true.
Proof.
  simpl. apply negb_true_iff, String.eqb_neq, env_or_nonempty. discriminate.
Qed.

(** X17.  A claim for the admin phone never reads the shared state, and
    its first run depends only on the presence of [network] and on the
    configured admin phone: without [network] it gets the 400
    missing-fields reply; otherwise it reaches the provider exactly when
    the admin phone itself matches the phone pattern, and gets the 400
    phone-format reply when [ADMIN_PHONE] is set to a number of another
    form. *)
Theorem admin_phone_claim_depends_on_configured_phone
    (env : Env) (b : ReqBody) (now : string) (L : Ledger) :
  strict_eq_str (mobile_number b) (ADMIN_PHONE env) = true ->
  run now (send_airtime env b) L
  = if truthy (network b)
    then if phoneRegex_test (ADMIN_PHONE env)
         then mkResult L [EPost (apiPayload b) (apiHeaders env)]
                (Suspended (apiPayload b) (apiHeaders env) (send_airtime_settled true b))
         else mkResult L [EReply invalid_phone] (Done invalid_phone)
    else mkResult L [EReply missing_required] (Done missing_required).
Proof.
  intros Ha. unfold send_airtime. rewrite Ha. simpl.
  rewrite run_send_airtime_validated.
  apply strict_eq_str_true in Ha. unfold missing_fields. rewrite Ha.
  rewrite ADMIN_PHONE_truthy. cbn [ToString negb orb].
  rewrite orb_false_r. now destruct (truthy (network b)).
Qed.

Lemma admin_phone_claim_depends_on_configured_phone_witness :
  let env := mkEnv None (Some "+2349161041419") in
  let b := mkBody JUndefined JUndefined (JStr "MTN") (JStr "+2349161041419") in
  let offline := mkLedger (mkSiteState false 52 0 None) [] in
  run "t" (send_airtime env b) offline
  = mkResult offline [EReply invalid_phone] (Done invalid_phone).
Proof.
  intros env b offline.
  exact (admin_phone_claim_depends_on_configured_phone env b "t" offline eq_refl).
Defined.

(** ** The two servers *)

(** X18.  With an API key in the environment, the present server answers
    every claim that admission lets through as the earlier server
    (backend.js) answers it: the same reply to invalid input, the same
    payload and headers to the provider, and the same reply to every
    settlement of the provider call. *)
Theorem backend_agrees_when_allowed
    (env : Env) (key : string) (b : ReqBody) (now : string) (L : Ledger) :
  env_API_KEY env = Some key ->
  key <> "" ->
  allowed (spec_evaluate (siteState L) (mobile_number b) (ADMIN_PHONE env)) = true ->
  match outcome (run now (Backend.send_airtime env b) L),
        outcome (run now (send_airtime env b) L) with
  | Done r, Done r' => r = r'
  | Suspended p hd k, Suspended p' hd' k' =>
      p = p' /\ hd = hd'
      /\ forall s now' L', outcome (run now' (k s) L') = outcome (run now' (k' s) L')
  | _, _ => False
  end.
Proof.
  intros Hk Hne Hall.
  assert (Hkey : API_KEY env = key).
  { unfold API_KEY, env_or. rewrite Hk. simpl.
    destruct (String.eqb_spec key ""); [contradiction | reflexivity]. }
  assert (Hhd : Backend.apiHeaders env = apiHeaders env).
  { unfold Backend.apiHeaders, apiHeaders, Backend.API_KEY. now rewrite Hk, Hkey. }
  assert (Hbk : truthy (Backend.API_KEY env) = true).
  { unfold Backend.API_KEY. rewrite Hk. simpl.
    destruct (String.eqb_spec key ""); [contradiction | reflexivity]. }
  assert (Hsettled : forall a s now' L',
    outcome (run now' (Backend.send_airtime_settled s) L')
    = outcome (run now' (send_airtime_settled a b s) L')).
  { intros a [r | e | st | st] now' L'; simpl.
    - now destruct a.
    - destruct (response e); [reflexivity |]. now destruct (request e).
    - now destruct a.
    - reflexivity. }
  assert (Hnew : outcome (run now (send_airtime env b) L)
                 = outcome (run now (send_airtime_validated env
                     (strict_eq_str (mobile_number b) (ADMIN_PHONE env)) b) L)).
  { unfold send_airtime. unfold spec_evaluate in Hall.
    destruct (strict_eq_str (mobile_number b) (ADMIN_PHONE env)); simpl; [reflexivity |].
    destruct (isSiteOnline (siteState L)); simpl in *; [| discriminate].
    destruct (claimsToday (siteState L) >=? claimLimit (siteState L));
      [discriminate | reflexivity]. }
  rewrite Hnew, run_send_airtime_validated. unfold Backend.send_airtime.
  destruct (missing_fields b); simpl; [reflexivity |].
  destruct (phoneRegex_test _); simpl; [| reflexivity].
  rewrite Hbk. simpl. repeat split; [exact Hhd |]. intros s now' L'. apply Hsettled.
Qed.

Lemma backend_agrees_when_allowed_witness :
  let env := mkEnv (Some "secret") None in
  let b := mkBody JUndefined JUndefined (JStr "MTN") (JStr "0801234") in
  match outcome (run "t" (Backend.send_airtime env b) initial_ledger),
        outcome (run "t" (send_airtime env b) initial_ledger) with
  | Done r, Done r' => r = r'
  | Suspended p hd k, Suspended p' hd' k' =>
      p = p' /\ hd = hd'
      /\ forall s now' L', outcome (run now' (k s) L') = outcome (run now' (k' s) L')
  | _, _ => False
  end.
Proof.
  intros env b.
  apply (backend_agrees_when_allowed env "secret" b "t" initial_ledger eq_refl);
    [discriminate | reflexivity].
Defined.

(** ** Login and the gate *)

(** X19.  Login and the PIN gate decide alike on every body: either
    login answers 200 and [verifyAdminPin] hands the request on to the
    route behind it, whichever that is, or login answers 401 and
    [verifyAdminPin] answers 403 itself without running the route. *)
Theorem login_agrees_with_gate (env : Env) (b : ReqBody) (now : string) (L : Ledger) :
  let login := run now (app env (mkReq POST_admin_login b)) L in
  (login = mkResult L [EReply login_successful] (Done login_successful)
   /\ forall next, verifyAdminPin b next = next)
  \/ (login = mkResult L [EReply invalid_pin] (Done invalid_pin)
      /\ forall next, verifyAdminPin b next = Reply forbidden).
Proof.
  intros login. subst login. unfold app; simpl. unfold admin_login, verifyAdminPin.
  destruct (strict_eq_str (pin b) ADMIN_PIN); [left | right]; now split.
Qed.

(** ** Many claims *)

Lemma sequential_claims_respect_limit_witness :
  let env := mkEnv None None in
  let first := mkBody JUndefined JUndefined (JStr "MTN") (JStr "08012345678") in
  let second := mkBody JUndefined JUndefined (JStr "Glo") (JStr "08112345678") in
  let third := mkBody JUndefined JUndefined (JStr "Airtel") (JStr "09012345678") in
  let ok := Responds (mkHttp 200 (mkData JUndefined (JStr "Airtime sent"))) in
  let L := mkLedger (mkSiteState true 2 0 None) [] in
  let res := steps env (mkWorld L [])
               (sequential "2024-05-01T10:00:00.000Z"
                  [(first, ok); (second, ok); (third, ok)]) in
  claimsToday (siteState (ledger (fst res))) = 2
  /\ map status (snd res) = [200; 200; 429].
Proof.
  intros env first second third ok L res.
  destruct (sequential_claims_respect_limit env "2024-05-01T10:00:00.000Z"
              [(first, ok); (second, ok); (third, ok)] L)
    as (_ & _ & _ & Hc & Hs).
  - repeat constructor.
  - reflexivity.
  - simpl. lia.
  - split; [exact Hc | exact Hs].
Defined.

Lemma steps_app env s1 : forall w s2,
  steps env w (s1 ++ s2)
  = (fst (steps env (fst (steps env w s1)) s2),
     (snd (steps env w s1) ++ snd (steps env (fst (steps env w s1)) s2))%list).
Proof.
  induction s1 as [| i s1 IH]; intros w s2.
  - simpl. now destruct (steps env w s2).
  - cbn [List.app steps]. destruct (step env w i) as [w1 r]. rewrite IH.
    destruct (steps env w1 s1) as [w2 rs]. simpl.
    destruct (steps env w2 s2) as [w3 rs']. simpl. now destruct r.
Qed.

Lemma steps_arrivals env now L claims : forall others,
  Forall (admissible env) claims ->
  isSiteOnline (siteState L) = true ->
  claimsToday (siteState L) < claimLimit (siteState L) ->
  steps env (mkWorld L others) (arrivals now (map fst claims))
  = (mkWorld L (others ++ map (fun c => send_airtime_settled false (fst c)) claims), []).
Proof.
  intros others Hall Ho Hq. revert others.
  induction Hall as [| [b u] cs [Ha [Hw _]] _ IH]; intros others.
  - simpl. now rewrite app_nil_r.
  - cbn [map arrivals steps fst]. simpl in Ha, Hw.
    rewrite (step_claim_under_quota env now b L others Ha Hw Ho Hq).
    fold (arrivals now (map fst cs)). rewrite IH.
    now rewrite <- app_assoc.
Qed.

Lemma steps_settlements env now claims : forall L rest,
  Forall (admissible env) claims ->
  let res := steps env
               (mkWorld L (map (fun c => send_airtime_settled false (fst c)) claims ++ rest))
               (settlements now (map snd claims)) in
  inflight (fst res) = rest
  /\ claimLimit (siteState (ledger (fst res))) = claimLimit (siteState L)
  /\ claimsToday (siteState (ledger (fst res)))
     = claimsToday (siteState L) + Z.of_nat (List.length claims)
  /\ map status (snd res) = repeat 200 (List.length claims).
Proof.
  intros L rest Hall. revert L.
  induction Hall as [| [b u] cs [_ [_ Hs]] _ IH]; intros L.
  - simpl. repeat split. lia.
  - cbn [map settlements steps fst snd List.app]. simpl in Hs.
    destruct (step_settle_success env now b L
                (map (fun c => send_airtime_settled false (fst c)) cs ++ rest) u Hs)
      as (r & -> & Hr).
    fold (settlements now (map snd cs)).
    set (L1 := unshift _ (increment_claimsToday L)).
    specialize (IH L1). cbv zeta in IH.
    destruct (steps env _ (settlements now (map snd cs))) as [w2 rs].
    simpl fst in *. simpl snd in *.
    destruct IH as (Hi & Hl & Hc & Hst). repeat split; auto.
    + rewrite Hc. subst L1. cbn [List.length]. simpl claimsToday. lia.
    + cbn [map List.length repeat]. now rewrite Hr, Hst.
Qed.

(** X21.  When well-formed claims from other phones than the admin phone
    all arrive, on an online site under quota, before any of their
    provider calls settles, every one of them passes the quota test; once
    the provider has answered them all 2xx with a body that is not
    [null], each got 200 and each was counted once, so [claimsToday] ends
    at its start value plus their number, whatever [claimLimit] is. *)
Theorem concurrent_claims_are_all_counted
    (env : Env) (now now' : string) (claims : list (ReqBody * Upstream)) (L : Ledger) :
  Forall (admissible env) claims ->
  isSiteOnline (siteState L) = true ->
  claimsToday (siteState L) < claimLimit (siteState L) ->
  let res := steps env (mkWorld L [])
               (arrivals now (map fst claims) ++ settlements now' (map snd claims)) in
  inflight (fst res) = []
  /\ claimLimit (siteState (ledger (fst res))) = claimLimit (siteState L)
  /\ claimsToday (siteState (ledger (fst res)))
     = claimsToday (siteState L) + Z.of_nat (List.length claims)
  /\ map status (snd res) = repeat 200 (List.length claims).
Proof.
  intros Hall Ho Hq res. subst res. rewrite steps_app.
  rewrite (steps_arrivals env now L claims [] Hall Ho Hq). cbn [fst snd List.app].
  pose proof (steps_settlements env now' claims L [] Hall) as H. cbv zeta in H.
  rewrite app_nil_r in H. exact H.
Qed.

Lemma concurrent_claims_are_all_counted_witness :
  let env := mkEnv None None in
  let first := mkBody JUndefined JUndefined (JStr "MTN") (JStr "08012345678") in
  let second := mkBody JUndefined JUndefined (JStr "Glo") (JStr "08112345678") in
  let third := mkBody JUndefined JUndefined (JStr "Airtel") (JStr "09012345678") in
  let ok := Responds (mkHttp 200 (mkData JUndefined (JStr "Airtime sent"))) in
  let L := mkLedger (mkSiteState true 2 1 None) [] in
  let claims := [(first, ok); (second, ok); (third, ok)] in
  let res := steps env (mkWorld L [])
               (arrivals "2024-05-01T10:00:00.000Z" (map fst claims)
                ++ settlements "2024-05-01T10:00:05.000Z" (map snd claims)) in
  claimLimit (siteState (ledger (fst res))) = 2
  /\ claimsToday (siteState (ledger (fst res))) = 4.
Proof.
  intros env first second third ok L claims res.
  destruct (concurrent_claims_are_all_counted env "2024-05-01T10:00:00.000Z"
              "2024-05-01T10:00:05.000Z" claims L)
    as (_ & Hl & Hc & _).
  - repeat constructor.
  - reflexivity.
  - simpl. lia.
  - split; [exact Hl | exact Hc].
Defined.
